(** * ContinuousTapControl: a shallow embedding and its properties

    Source: [pandapower/control/controller/trafo/ContinuousTapControl.py].

    The controller adjusts a transformer tap position in floating point.
    Python [float] and numpy [float64] are IEEE-754 binary64, so every number
    of the program is a [spec_float] of the Standard Library with precision 53
    and maximal exponent 1024, and every arithmetic operation is the correctly
    rounded one.  numpy scalars do not raise on a division by zero (they yield
    an infinity or a NaN), and the operations below do the same.

    The pandas tables of the network are finite maps from the row label to a
    record of the columns, [.at] lookups fail with [KeyError] on a label that
    is not there, and the attributes of the controller object are the fields
    of a record. *)

From Stdlib Require Import ZArith Bool Lia.
From Stdlib Require Import Floats.SpecFloat.
From stdpp Require Import base option strings gmap.

Local Open Scope Z_scope.

(** ** Binary64 arithmetic *)

Module F64.

Definition prec : Z := 53.
Definition emax : Z := 1024.

Definition float : Type := spec_float.

Definition add : float -> float -> float := SFadd prec emax.
Definition sub : float -> float -> float := SFsub prec emax.
Definition mul : float -> float -> float := SFmul prec emax.
Definition div : float -> float -> float := SFdiv prec emax.
Definition abs : float -> float := SFabs.

(** Python's [x == y], [x < y] and [x <= y]: false as soon as one side is
    a NaN. *)
Definition eqb : float -> float -> bool := SFeqb.
Definition ltb : float -> float -> bool := SFltb.
Definition leb : float -> float -> bool := SFleb.

(** The binary64 value of an integer (exact below 2^53). *)
Definition of_Z (z : Z) : float := binary_normalize prec emax z 0 false.

(** The binary64 value nearest to [n / d]: the value of the decimal literal
    with numerator [n] over the power of ten [d], as the Python parser
    rounds it. *)
Definition frac (n d : Z) : float := div (of_Z n) (of_Z d).

Definition nan : float := S754_nan.

Definition is_nan (x : float) : bool :=
  match x with S754_nan => true | _ => false end.

(** Neither a NaN nor an infinity. *)
Definition is_finite (x : float) : bool :=
  match x with S754_zero _ | S754_finite _ _ _ => true | _ => false end.

Definition is_zero (x : float) : bool :=
  match x with S754_zero _ => true | _ => false end.

(** [np.maximum] and [np.minimum] on scalars: a NaN on either side comes
    out. *)
Definition maximum (a b : float) : float :=
  if is_nan a then a else if ltb b a then a else b.

Definition minimum (a b : float) : float :=
  if is_nan a then a else if ltb a b then a else b.

(** [np.clip(x, lo, hi)] is [np.minimum(np.maximum(x, lo), hi)].  This is
    what numpy computes for bounds that are numbers; for a NaN bound the
    outcome depends on the numpy version (up to 1.24 a scalar NaN bound is no
    bound at all), so the statements on clipping below take bounds that are
    numbers. *)
Definition clip (x lo hi : float) : float := minimum (maximum x lo) hi.

End F64.

Abbreviation float := F64.float.

Declare Scope f64_scope.
Delimit Scope f64_scope with f64.
Infix "+" := F64.add : f64_scope.
Infix "-" := F64.sub : f64_scope.
Infix "*" := F64.mul : f64_scope.
Infix "/" := F64.div : f64_scope.
Infix "==" := F64.eqb (at level 70, no associativity) : f64_scope.
Infix "<?" := F64.ltb : f64_scope.
Infix "<=?" := F64.leb : f64_scope.

(** ** Exceptions *)

Inductive exn : Type :=
  | KeyError          (* a label or a column that the table does not have *)
  | AttributeError    (* an attribute that was never assigned *)
  | BaseError.        (* whatever the base constructor raised *)

Inductive result (A : Type) : Type :=
  | Ok (a : A)
  | Raise (e : exn).
Arguments Ok {A} a.
Arguments Raise {A} e.

#[global] Instance result_ret : MRet result := fun _ a => Ok a.
#[global] Instance result_bind : MBind result := fun _ _ f m =>
  match m with Ok a => f a | Raise e => Raise e end.
#[global] Instance result_fmap : FMap result := fun _ _ f m =>
  match m with Ok a => Ok (f a) | Raise e => Raise e end.

(** ** The network tables *)

(** The columns of [net.trafo] and [net.trafo3w] that the controller touches.
    [vn_mv_kv] and [mv_bus] exist in the three-winding table only: [None] is a
    column that is not there.  A bus column holds [None] where the cell is
    missing.  Numeric cells are held as their binary64 value, so
    [tap_pos.astype(float)] is the identity on them. *)
Record trafo_row : Type := {
  vn_hv_kv : float;
  vn_mv_kv : option float;
  vn_lv_kv : float;
  hv_bus : option Z;
  mv_bus : option Z;
  lv_bus : option Z;
  col_tap_pos : float;
  in_service : bool
}.

Record bus_row : Type := { vn_kv : float }.
Record res_bus_row : Type := { vm_pu : float }.

Record pandapowerNet : Type := {
  trafo : gmap Z trafo_row;
  trafo3w : gmap Z trafo_row;
  bus : gmap Z bus_row;
  res_bus : gmap Z res_bus_row
}.

(** [self.trafotable]: the name of the table the controlled element is in. *)
Inductive trafotable_name : Type := TableTrafo | TableTrafo3w.

(** [net[name]] *)
Definition net_table (net : pandapowerNet) (name : trafotable_name)
  : gmap Z trafo_row :=
  match name with TableTrafo => trafo net | TableTrafo3w => trafo3w net end.

Definition set_net_table (net : pandapowerNet) (name : trafotable_name)
    (t : gmap Z trafo_row) : pandapowerNet :=
  match name with
  | TableTrafo =>
      {| trafo := t; trafo3w := trafo3w net; bus := bus net;
         res_bus := res_bus net |}
  | TableTrafo3w =>
      {| trafo := trafo net; trafo3w := t; bus := bus net;
         res_bus := res_bus net |}
  end.

(** Reading [t.at[label, column]]. *)
Definition at_ {R A} (t : gmap Z R) (label : Z) (column : R -> A) : result A :=
  match t !! label with
  | Some r => Ok (column r)
  | None => Raise KeyError
  end.

Definition present {A} (cell : option A) : result A :=
  match cell with Some a => Ok a | None => Raise KeyError end.

(** [b.at[t.at[tid, bus_column], "vn_kv"]] *)
Definition bus_vn_kv (net : pandapowerNet) (t : gmap Z trafo_row) (tid : Z)
    (bus_column : trafo_row -> option Z) : result float :=
  cell ← at_ t tid bus_column;
  label ← present cell;
  at_ (bus net) label vn_kv.

(** The row that pandas makes when a cell is assigned at a label the table
    does not have: every other cell of the table's columns is missing (NaN,
    which is truthy). *)
Definition missing_row (name : trafotable_name) : trafo_row :=
  {| vn_hv_kv := F64.nan;
     vn_mv_kv := match name with
                 | TableTrafo => None
                 | TableTrafo3w => Some F64.nan
                 end;
     vn_lv_kv := F64.nan;
     hv_bus := None; mv_bus := None; lv_bus := None;
     col_tap_pos := F64.nan; in_service := true |}.

Definition with_tap_pos (r : trafo_row) (v : float) : trafo_row :=
  {| vn_hv_kv := vn_hv_kv r; vn_mv_kv := vn_mv_kv r; vn_lv_kv := vn_lv_kv r;
     hv_bus := hv_bus r; mv_bus := mv_bus r; lv_bus := lv_bus r;
     col_tap_pos := v; in_service := in_service r |}.

(** Writing [net[name].at[label, "tap_pos"] = v] on the table [t]; never
    fails, a new label enlarges the table. *)
Definition at_put_tap_pos (name : trafotable_name) (t : gmap Z trafo_row)
    (label : Z) (v : float) : gmap Z trafo_row :=
  <[label := with_tap_pos (default (missing_row name) (t !! label)) v]> t.

(** ** The controller object *)

(** What [TrafoController.__init__] leaves on the object.  The base class is
    not part of the file; its attributes are taken as they come. *)
Record TrafoController : Type := {
  base_tid : Z;
  base_trafotable : trafotable_name;
  base_controlled_bus : Z;
  base_tap_step_percent : float;
  base_tap_side_coeff : float;
  base_tap_sign : float;
  base_tap_min : float;
  base_tap_max : float;
  base_tap_pos : float
}.

(** The attributes of a [ContinuousTapControl].  [t_nom] is [None] as long as
    no assignment to [self.t_nom] has run. *)
Record ContinuousTapControl : Type := {
  tid : Z;
  trafotable : trafotable_name;
  controlled_bus : Z;
  tap_step_percent : float;
  tap_side_coeff : float;
  tap_sign : float;
  tap_min : float;
  tap_max : float;
  tap_pos : float;
  t_nom : option float;
  check_tap_bounds : bool;
  u_set : float;
  trafotype : string;
  tol : float
}.

(** [self.tap_pos = v] *)
Definition set_tap_pos (self : ContinuousTapControl) (v : float)
  : ContinuousTapControl :=
  {| tid := tid self; trafotable := trafotable self;
     controlled_bus := controlled_bus self;
     tap_step_percent := tap_step_percent self;
     tap_side_coeff := tap_side_coeff self; tap_sign := tap_sign self;
     tap_min := tap_min self; tap_max := tap_max self;
     tap_pos := v;
     t_nom := t_nom self; check_tap_bounds := check_tap_bounds self;
     u_set := u_set self; trafotype := trafotype self; tol := tol self |}.

(** Reading an attribute that may not have been assigned. *)
Definition getattr {A} (attribute : option A) : result A :=
  match attribute with Some a => Ok a | None => Raise AttributeError end.

Local Open Scope f64_scope.

(** ** [__init__] *)

(** [t.at[tid, far] / t.at[tid, "vn_hv_kv"] * b.at[hv_bus, "vn_kv"]
     / b.at[near_bus, "vn_kv"]] *)
Definition nominal_ratio (net : pandapowerNet) (t : gmap Z trafo_row)
    (tid : Z) (vn_far : result float) (near_bus : trafo_row -> option Z)
  : result float :=
  far ← vn_far;
  hv ← at_ t tid vn_hv_kv;
  b_hv ← bus_vn_kv net t tid hv_bus;
  b_near ← bus_vn_kv net t tid near_bus;
  mret (far / hv * b_hv / b_near).

(** Lines 45-58: the [if]/[elif] chain has no [else], so [self.t_nom] stays
    unassigned when no branch is taken. *)
Definition init_t_nom (net : pandapowerNet) (t : gmap Z trafo_row) (tid : Z)
    (side trafotype : string) : result (option float) :=
  if decide (trafotype = "2W") then
    Some <$> nominal_ratio net t tid (at_ t tid vn_lv_kv) lv_bus
  else if decide (side = "lv") then
    Some <$> nominal_ratio net t tid (at_ t tid vn_lv_kv) lv_bus
  else if decide (side = "mv") then
    Some <$> nominal_ratio net t tid (at_ t tid vn_mv_kv ≫= present) mv_bus
  else
    mret None.

(** [ContinuousTapControl.__init__].  [super_init] is the outcome of
    [super().__init__(...)] on the same arguments; if it raises, so does the
    constructor.  [update_initialized] and [matching_params] are bookkeeping
    of the base class and touch none of the attributes below.  Lines 63-66
    coerce the [tap_pos] column to float, which leaves every cell of the model
    as it is, so the network is not returned. *)
Definition __init__ (super_init : result TrafoController)
    (net : pandapowerNet) (tid_arg : Z) (u_set_arg tol_arg : float)
    (side trafotype_arg : string) (check_tap_bounds_arg : bool)
  : result ContinuousTapControl :=
  base ← super_init;
  let t := net_table net (base_trafotable base) in
  tn ← init_t_nom net t tid_arg side trafotype_arg;
  mret {| tid := base_tid base;
          trafotable := base_trafotable base;
          controlled_bus := base_controlled_bus base;
          tap_step_percent := base_tap_step_percent base;
          tap_side_coeff := base_tap_side_coeff base;
          tap_sign := base_tap_sign base;
          tap_min := base_tap_min base;
          tap_max := base_tap_max base;
          tap_pos := base_tap_pos base;
          t_nom := tn;
          check_tap_bounds := check_tap_bounds_arg;
          u_set := u_set_arg;
          trafotype := trafotype_arg;
          tol := tol_arg |}.

(** ** [control_step] *)

Definition hundred : float := F64.of_Z 100.
Definition one : float := F64.of_Z 1.
Definition minus_one : float := F64.of_Z (-1).

(** [tc = ud / self.tap_step_percent * 100 / self.t_nom] *)
Definition tap_correction (ud tap_step_percent_ t_nom_ : float) : float :=
  ud / tap_step_percent_ * hundred / t_nom_.

(** [self.tap_pos + tc * self.tap_side_coeff * self.tap_sign], before any
    clipping. *)
Definition moved_tap_pos (self : ContinuousTapControl) (u tn : float) : float :=
  let ud := u - u_set self in
  let tc := tap_correction ud (tap_step_percent self) tn in
  tap_pos self + tc * tap_side_coeff self * tap_sign self.

Definition control_step (net : pandapowerNet) (self : ContinuousTapControl)
  : result (pandapowerNet * ContinuousTapControl) :=
  u ← at_ (res_bus net) (controlled_bus self) vm_pu;
  tn ← getattr (t_nom self);
  let tp := moved_tap_pos self u tn in
  let tp :=
    if check_tap_bounds self then F64.clip tp (tap_min self) (tap_max self)
    else tp in
  let self := set_tap_pos self tp in
  (* WRITE TO NET *)
  let t := at_put_tap_pos (trafotable self)
             (net_table net (trafotable self)) (tid self) (tap_pos self) in
  mret (set_net_table net (trafotable self) t, self).

(** ** [is_converged] *)

(** The four tests of lines 95-104 on the measured voltage [u] and the
    refreshed tap position of [self]. *)
Definition at_tap_limit (self : ContinuousTapControl) (u : float) : bool :=
  if tap_side_coeff self * tap_sign self == one then
    if (u <? u_set self) && (tap_pos self == tap_min self) then true
    else if (u_set self <? u) && (tap_pos self == tap_max self) then true
    else false
  else if tap_side_coeff self * tap_sign self == minus_one then
    if (u_set self <? u) && (tap_pos self == tap_min self) then true
    else if (u <? u_set self) && (tap_pos self == tap_max self) then true
    else false
  else false.

(** Returns the answer and the object, whose [tap_pos] has been refreshed
    from the table unless the element is out of service. *)
Definition is_converged (net : pandapowerNet) (self : ContinuousTapControl)
  : result (bool * ContinuousTapControl) :=
  ins ← at_ (net_table net (trafotable self)) (tid self) in_service;
  if negb ins then mret (true, self)
  else
    u ← at_ (res_bus net) (controlled_bus self) vm_pu;
    tp ← at_ (net_table net (trafotable self)) (tid self) col_tap_pos;
    let self := set_tap_pos self tp in
    let difference := one - u_set self / u in
    if check_tap_bounds self && at_tap_limit self u then mret (true, self)
    else mret (F64.abs difference <? tol self, self).

(** ** The operations, as the specification words them *)

(** Converged by saturation: with [coeff * sign == +1], the voltage is below
    the setpoint at the minimum tap or above it at the maximum tap; with
    [coeff * sign == -1], above at the minimum or below at the maximum. *)
Definition saturated (self : ContinuousTapControl) (u tp : float) : Prop :=
  let cs := tap_side_coeff self * tap_sign self in
  ((cs == one) = true ∧
     (((u <? u_set self) = true ∧ (tp == tap_min self) = true) ∨
      ((u_set self <? u) = true ∧ (tp == tap_max self) = true)))
  ∨
  ((cs == minus_one) = true ∧
     (((u_set self <? u) = true ∧ (tp == tap_min self) = true) ∨
      ((u <? u_set self) = true ∧ (tp == tap_max self) = true))).

(** [|1 - setpoint / measured| < tolerance], taken literally. *)
Definition within_tolerance (self : ContinuousTapControl) (u : float) : bool :=
  F64.abs (one - u_set self / u) <? tol self.

(** The tap position after a step, as the specification gives it: the old
    position plus the tap correction times the two signs, clamped when the
    bounds are enforced. *)
Definition stepped_tap_pos (self : ContinuousTapControl) (u tn : float)
  : float :=
  let moved :=
    tap_pos self
    + (u - u_set self) / tap_step_percent self * hundred / tn
      * tap_side_coeff self * tap_sign self in
  if check_tap_bounds self then F64.clip moved (tap_min self) (tap_max self)
  else moved.

(** A valid input of a control step: every number is finite, and the tap step
    size, the nominal ratio factor and the two signs are not zero. *)
Definition valid_step_input (self : ContinuousTapControl) (u tn : float)
  : Prop :=
  F64.is_finite u = true ∧
  F64.is_finite (u_set self) = true ∧
  F64.is_finite (tap_pos self) = true ∧
  (F64.is_finite (tap_step_percent self) = true ∧
   F64.is_zero (tap_step_percent self) = false) ∧
  (F64.is_finite tn = true ∧ F64.is_zero tn = false) ∧
  (F64.is_finite (tap_side_coeff self) = true ∧
   F64.is_zero (tap_side_coeff self) = false) ∧
  (F64.is_finite (tap_sign self) = true ∧
   F64.is_zero (tap_sign self) = false).

(** The nominal ratio factor that the constructor leaves on the object. *)
Definition built_t_nom (built : result ContinuousTapControl)
  : result (option float) := t_nom <$> built.

(** ** The order of the comparisons

    Every binary64 number that is not a NaN has a rank: its class (minus
    infinity, negative, zero, positive, plus infinity), then the exponent and
    the mantissa, both negated for a negative number.  Python's comparisons
    order the numbers by rank. *)
Definition rank (x : float) : Z * Z * Z :=
  match x with
  | S754_infinity true => (0, 0, 0)%Z
  | S754_finite true m e => (1, - e, Z.neg m)%Z
  | S754_zero _ => (2, 0, 0)%Z
  | S754_nan => (2, 0, 0)%Z
  | S754_finite false m e => (3, e, Z.pos m)%Z
  | S754_infinity false => (4, 0, 0)%Z
  end.

Definition lex_compare (k1 k2 : Z * Z * Z) : comparison :=
  let '(c1, e1, m1) := k1 in
  let '(c2, e2, m2) := k2 in
  match (c1 ?= c2)%Z with
  | Eq => match (e1 ?= e2)%Z with Eq => (m1 ?= m2)%Z | r => r end
  | r => r
  end.

(** [y] is [x] clamped to the range from [lo] to [hi]: a NaN stays a NaN; a
    number within the range stays equal to itself, one at or beyond a bound
    becomes that bound, and the result lies within the range; with the bounds
    the wrong way round the result is the upper bound. *)
Definition clamped (x lo hi y : float) : Prop :=
  (F64.is_nan x = true -> F64.is_nan y = true) ∧
  (F64.is_nan x = false ->
     ((lo <=? hi) = true -> (lo <=? y) = true ∧ (y <=? hi) = true) ∧
     ((lo <=? x) = true -> (x <=? hi) = true -> (y == x) = true) ∧
     ((lo <=? hi) = true -> (hi <=? x) = true -> y = hi) ∧
     ((lo <=? hi) = true -> (x <=? lo) = true -> (y == lo) = true) ∧
     ((hi <? lo) = true -> y = hi)).

(** The tap bounds are numbers whenever they are enforced. *)
Definition bounds_are_numbers (self : ContinuousTapControl) : Prop :=
  check_tap_bounds self = true ->
  F64.is_nan (tap_min self) = false ∧ F64.is_nan (tap_max self) = false.

(** What makes the tap correction of a step at equilibrium a zero: a finite
    measured voltage, a step size and a nominal ratio factor that are
    non-zero numbers, finite signs, and a tap position that is a number. *)
Definition equilibrium_input (self : ContinuousTapControl) (u tn : float)
  : Prop :=
  F64.is_finite u = true ∧
  (F64.is_nan (tap_step_percent self) = false ∧
   F64.is_zero (tap_step_percent self) = false) ∧
  (F64.is_nan tn = false ∧ F64.is_zero tn = false) ∧
  F64.is_finite (tap_side_coeff self) = true ∧
  F64.is_finite (tap_sign self) = true ∧
  F64.is_nan (tap_pos self) = false.

(** The bounds leave the tap position where it is: they are not enforced, or
    the position is within them, or they are the wrong way round and the
    position is at the upper one. *)
Definition bounds_keep (self : ContinuousTapControl) : Prop :=
  check_tap_bounds self = false ∨
  ((tap_min self <=? tap_pos self) = true ∧
   (tap_pos self <=? tap_max self) = true) ∨
  ((tap_max self <? tap_min self) = true ∧
   (tap_pos self == tap_max self) = true).

(** The topology/side pairs for which one of the three branches of lines
    47-58 runs. *)
Definition branch_taken (side trafotype : string) : Prop :=
  trafotype = "2W" ∨ side = "lv" ∨ side = "mv".

(** ** A two-winding network to run the controller on

    Transformer 0 between bus 0 (110 kV) and bus 1 (20 kV), rated 110/20 kV,
    taps from -9 to 9 in steps of 1.5 percent, regulated on the low-voltage
    side (bus 1). *)
Module Example.

Definition row (tp : float) (ins : bool) : trafo_row :=
  {| vn_hv_kv := F64.of_Z 110; vn_mv_kv := None; vn_lv_kv := F64.of_Z 20;
     hv_bus := Some 0%Z; mv_bus := None; lv_bus := Some 1%Z;
     col_tap_pos := tp; in_service := ins |}.

(** The network with tap position [tp] in the table and the solved voltage
    [u] at bus 1. *)
Definition net (tp u : float) (ins : bool) : pandapowerNet :=
  {| trafo := {[ 0%Z := row tp ins ]};
     trafo3w := ∅;
     bus := {[ 0%Z := {| vn_kv := F64.of_Z 110 |};
               1%Z := {| vn_kv := F64.of_Z 20 |} ]};
     res_bus := {[ 1%Z := {| vm_pu := u |} ]} |}.

Definition base (tp : float) : TrafoController :=
  {| base_tid := 0; base_trafotable := TableTrafo;
     base_controlled_bus := 1;
     base_tap_step_percent := F64.frac 15 10;
     base_tap_side_coeff := one; base_tap_sign := one;
     base_tap_min := F64.of_Z (-9); base_tap_max := F64.of_Z 9;
     base_tap_pos := tp |}.

(** The same transformer regulated on the high-voltage side (bus 0), where
    a higher tap lowers the regulated voltage. *)
Definition base_hv (tp : float) : TrafoController :=
  {| base_tid := 0; base_trafotable := TableTrafo;
     base_controlled_bus := 0;
     base_tap_step_percent := F64.frac 15 10;
     base_tap_side_coeff := minus_one; base_tap_sign := one;
     base_tap_min := F64.of_Z (-9); base_tap_max := F64.of_Z 9;
     base_tap_pos := tp |}.

(** The controller with setpoint 1.0 and tolerance 0.001. *)
Definition controller (tp : float) (bounds : bool) : ContinuousTapControl :=
  {| tid := 0; trafotable := TableTrafo; controlled_bus := 1;
     tap_step_percent := F64.frac 15 10;
     tap_side_coeff := one; tap_sign := one;
     tap_min := F64.of_Z (-9); tap_max := F64.of_Z 9;
     tap_pos := tp;
     t_nom := Some one;
     check_tap_bounds := bounds;
     u_set := one;
     trafotype := "2W";
     tol := F64.frac 1 1000 |}.

End Example.

(** ** A three-winding network

    Transformer 0 between bus 0 (110 kV), bus 1 (20 kV) and bus 2 (10 kV),
    rated 110/20/10 kV. *)
Module Example3w.

Definition row : trafo_row :=
  {| vn_hv_kv := F64.of_Z 110; vn_mv_kv := Some (F64.of_Z 20);
     vn_lv_kv := F64.of_Z 10;
     hv_bus := Some 0%Z; mv_bus := Some 1%Z; lv_bus := Some 2%Z;
     col_tap_pos := F64.of_Z 0; in_service := true |}.

Definition net : pandapowerNet :=
  {| trafo := ∅;
     trafo3w := {[ 0%Z := row ]};
     bus := {[ 0%Z := {| vn_kv := F64.of_Z 110 |};
               1%Z := {| vn_kv := F64.of_Z 20 |};
               2%Z := {| vn_kv := F64.of_Z 10 |} ]};
     res_bus := {[ 0%Z := {| vm_pu := F64.frac 102 100 |};
                   1%Z := {| vm_pu := F64.frac 99 100 |};
                   2%Z := {| vm_pu := F64.frac 98 100 |} ]} |}.

(** What the base constructor leaves for a controller on [bus]. *)
Definition base (bus : Z) : TrafoController :=
  {| base_tid := 0; base_trafotable := TableTrafo3w;
     base_controlled_bus := bus;
     base_tap_step_percent := F64.frac 15 10;
     base_tap_side_coeff := one; base_tap_sign := one;
     base_tap_min := F64.of_Z (-9); base_tap_max := F64.of_Z 9;
     base_tap_pos := F64.of_Z 0 |}.

End Example3w.

(** ** Rounding never makes a NaN *)

Section Rounding.
Variables prec emax : Z.

Lemma shr_1_nonneg (mrs : shr_record) :
  0 <= shr_m mrs -> 0 <= shr_m (shr_1 mrs).
Proof.
  destruct mrs as [m r s]; cbn.
  destruct m as [| [p | p |] | p]; cbn; lia.
Qed.

Lemma iter_pos_shr_1_nonneg (p : positive) (mrs : shr_record) :
  0 <= shr_m mrs -> 0 <= shr_m (SpecFloat.iter_pos shr_1 p mrs).
Proof.
  revert mrs; induction p as [p IH | p IH |]; intros mrs Hm; cbn.
  - apply IH, IH, shr_1_nonneg, Hm.
  - apply IH, IH, Hm.
  - apply shr_1_nonneg, Hm.
Qed.

Lemma shr_fexp_nonneg (m e : Z) (l : location) :
  0 <= m -> 0 <= shr_m (fst (shr_fexp prec emax m e l)).
Proof.
  intros Hm. unfold shr_fexp, shr.
  assert (H0 : 0 <= shr_m (shr_record_of_loc m l)).
  { destruct l as [| []]; exact Hm. }
  destruct (fexp prec emax (Zdigits2 m + e) - e)%Z; cbn; auto.
  apply iter_pos_shr_1_nonneg, H0.
Qed.

Lemma round_nearest_even_nonneg (m : Z) (l : location) :
  0 <= m -> 0 <= round_nearest_even m l.
Proof.
  intros Hm. destruct l as [| []]; cbn; try lia.
  destruct (Z.even m); lia.
Qed.

Lemma binary_round_aux_not_nan (sx : bool) (mx ex : Z) (lx : location) :
  0 <= mx -> binary_round_aux prec emax sx mx ex lx <> S754_nan.
Proof.
  intros Hm. unfold binary_round_aux.
  pose proof (shr_fexp_nonneg mx ex lx Hm) as H1.
  destruct (shr_fexp prec emax mx ex lx) as [mrs' e']; cbn [fst] in H1.
  pose proof (shr_fexp_nonneg _ e' loc_Exact
                (round_nearest_even_nonneg _ (loc_of_shr_record mrs') H1))
    as H2.
  destruct (shr_fexp prec emax _ e' loc_Exact) as [mrs'' e''];
    cbn [fst] in H2.
  destruct (shr_m mrs''); [discriminate | | lia].
  destruct (e'' <=? emax - prec)%Z; discriminate.
Qed.

Lemma binary_normalize_not_nan (m e : Z) (szero : bool) :
  binary_normalize prec emax m e szero <> S754_nan.
Proof.
  destruct m; cbn; [discriminate | |];
    unfold binary_round;
    destruct (shl_align _ _ _); apply binary_round_aux_not_nan; lia.
Qed.

Lemma SFdiv_core_binary_nonneg (m1 m2 : positive) (e1 e2 : Z) :
  0 <= fst (fst (SFdiv_core_binary prec emax (Zpos m1) e1 (Zpos m2) e2)).
Proof.
  unfold SFdiv_core_binary; cbv zeta.
  set (s := (e1 - e2 - _)%Z).
  set (m' := match s with
             | Z0 => Z.pos m1 | Z.pos _ => Z.shiftl (Z.pos m1) s
             | Z.neg _ => Z0 end).
  assert (Hm' : 0 <= m').
  { subst m'. destruct s; try lia. apply Z.shiftl_nonneg. lia. }
  pose proof (Z_div_mod m' (Zpos m2) ltac:(lia)) as Hdiv.
  destruct (Z.div_eucl m' (Z.pos m2)) as [q r]; cbn [fst].
  destruct Hdiv as [Heq Hr]. nia.
Qed.
End Rounding.

(** ** Facts of binary64 arithmetic *)

Section F64Facts.
Implicit Types x y a b lo hi : float.

Lemma is_nan_false x : x <> S754_nan -> F64.is_nan x = false.
Proof. destruct x; intros H; [reflexivity | reflexivity | | reflexivity]. now destruct H. Qed.

Lemma sub_not_nan a b :
  F64.is_finite a = true -> F64.is_finite b = true ->
  F64.is_nan (a - b) = false.
Proof.
  destruct a as [sa | sa | | sa ma ea], b as [sb | sb | | sb mb eb];
    try discriminate; intros _ _; try reflexivity.
  - destruct sa, sb; reflexivity.
  - apply is_nan_false, binary_normalize_not_nan.
Qed.

Lemma add_not_nan a b :
  F64.is_finite a = true -> F64.is_nan b = false ->
  F64.is_nan (a + b) = false.
Proof.
  destruct a as [sa | sa | | sa ma ea], b as [sb | sb | | sb mb eb];
    try discriminate; intros _ _; try reflexivity.
  - destruct sa, sb; reflexivity.
  - apply is_nan_false, binary_normalize_not_nan.
Qed.

Lemma mul_not_nan a b :
  F64.is_nan a = false -> F64.is_finite b = true -> F64.is_zero b = false ->
  F64.is_nan (a * b) = false.
Proof.
  destruct a as [sa | sa | | sa ma ea], b as [sb | sb | | sb mb eb];
    try discriminate; intros _ _ _; try reflexivity.
  apply is_nan_false, binary_round_aux_not_nan. lia.
Qed.

Lemma div_not_nan a b :
  F64.is_nan a = false -> F64.is_finite b = true -> F64.is_zero b = false ->
  F64.is_nan (a / b) = false.
Proof.
  destruct a as [sa | sa | | sa ma ea], b as [sb | sb | | sb mb eb];
    try discriminate; intros _ _ _; try reflexivity.
  apply is_nan_false. unfold F64.div, SFdiv.
  pose proof (SFdiv_core_binary_nonneg F64.prec F64.emax ma mb ea eb) as Hq.
  destruct (SFdiv_core_binary _ _ _ _ _ _) as [[mz ez] lz].
  apply binary_round_aux_not_nan, Hq.
Qed.

Lemma hundred_finite :
  F64.is_finite hundred = true ∧ F64.is_zero hundred = false.
Proof. split; reflexivity. Qed.
End F64Facts.

(** ** Comparisons and clipping *)

Section Comparisons.
Implicit Types x y a b c lo hi : float.

Lemma compare_refl x : F64.is_nan x = false -> SFcompare x x = Some Eq.
Proof.
  destruct x as [s | s | | s m e]; try discriminate; intros _; cbn;
    try (destruct s; reflexivity).
  destruct s; rewrite Z.compare_refl;
    change (Pos.compare_cont Eq m m) with (Pos.compare m m);
    rewrite Pos.compare_refl; reflexivity.
Qed.

Lemma eqb_refl x : F64.is_nan x = false -> (x == x) = true.
Proof.
  intros H. unfold F64.eqb, SFeqb. rewrite (compare_refl x H). reflexivity.
Qed.

(** Two floats that compare equal are the same, or two zeros. *)
Lemma eqb_cases a b :
  (a == b) = true ->
  a = b ∨ (F64.is_zero a = true ∧ F64.is_zero b = true).
Proof.
  unfold F64.eqb, SFeqb.
  destruct a as [sa | sa | | sa ma ea], b as [sb | sb | | sb mb eb];
    cbn; try discriminate; auto;
    try (destruct sa; discriminate); try (destruct sb; discriminate).
  - destruct sa, sb; try discriminate; auto.
  - change (Pos.compare_cont Eq ma mb) with (Pos.compare ma mb).
    destruct sa, sb; try discriminate;
      destruct (Z.compare_spec ea eb) as [-> | |]; try discriminate;
      destruct (Pos.compare_spec ma mb) as [-> | |]; try discriminate; auto.
Qed.

Lemma compare_zero_l (s s' : bool) c :
  SFcompare (S754_zero s) c = SFcompare (S754_zero s') c.
Proof. destruct c; reflexivity. Qed.

Lemma compare_zero_r (s s' : bool) c :
  SFcompare c (S754_zero s) = SFcompare c (S754_zero s').
Proof. destruct c; reflexivity. Qed.

Lemma eqb_compare_l a b c :
  (a == b) = true -> SFcompare a c = SFcompare b c.
Proof.
  intros H. destruct (eqb_cases a b H) as [-> | [Ha Hb]]; [reflexivity |].
  destruct a, b; try discriminate. apply compare_zero_l.
Qed.

Lemma eqb_compare_r a b c :
  (a == b) = true -> SFcompare c a = SFcompare c b.
Proof.
  intros H. destruct (eqb_cases a b H) as [-> | [Ha Hb]]; [reflexivity |].
  destruct a, b; try discriminate. apply compare_zero_r.
Qed.

Lemma eqb_not_nan_l a b : (a == b) = true -> F64.is_nan a = false.
Proof. destruct a; [reflexivity | reflexivity | discriminate | reflexivity]. Qed.

Lemma eqb_sym a b : (a == b) = true -> (b == a) = true.
Proof.
  intros H. unfold F64.eqb, SFeqb.
  rewrite <- (eqb_compare_l a b a H).
  rewrite (compare_refl a (eqb_not_nan_l a b H)). reflexivity.
Qed.

Lemma leb_not_nan a b :
  (a <=? b) = true -> F64.is_nan a = false ∧ F64.is_nan b = false.
Proof.
  unfold F64.leb, SFleb.
  destruct a, b; cbn; try discriminate; auto.
Qed.

(** [np.clip] lands between the bounds whenever they are in order and the
    argument is a number. *)
Lemma clip_in_bounds x lo hi :
  (lo <=? hi) = true -> F64.is_nan x = false ->
  (lo <=? F64.clip x lo hi) = true ∧ (F64.clip x lo hi <=? hi) = true.
Proof.
  intros Hle Hx. destruct (leb_not_nan lo hi Hle) as [Hlo Hhi].
  unfold F64.clip, F64.maximum, F64.minimum. rewrite Hx.
  assert (Hmax : ∀ m, F64.is_nan m = false -> (lo <=? m) = true ->
            (lo <=? (if m <? hi then m else hi)) = true ∧
            ((if m <? hi then m else hi) <=? hi) = true).
  { intros m Hm Hlm. destruct (m <? hi) eqn:Hlt.
    - split; [exact Hlm |].
      unfold F64.ltb, SFltb in Hlt. unfold F64.leb, SFleb.
      destruct (SFcompare m hi) as [[]|]; congruence.
    - split; [exact Hle |].
      unfold F64.leb, SFleb. rewrite (compare_refl hi Hhi). reflexivity. }
  destruct (lo <? x) eqn:Hlt; rewrite ?Hx, ?Hlo.
  - apply Hmax; [exact Hx |].
    unfold F64.ltb, SFltb in Hlt. unfold F64.leb, SFleb.
    destruct (SFcompare lo x) as [[]|]; congruence.
  - apply Hmax; [exact Hlo |].
    unfold F64.leb, SFleb. rewrite (compare_refl lo Hlo). reflexivity.
Qed.

(** [np.clip] returns a number equal to its argument when that is already
    between the bounds. *)
Lemma clip_inside x lo hi :
  (lo <=? x) = true -> (x <=? hi) = true -> (F64.clip x lo hi == x) = true.
Proof.
  intros Hlo Hhi.
  destruct (leb_not_nan lo x Hlo) as [Hnlo Hnx].
  unfold F64.clip, F64.maximum, F64.minimum. rewrite Hnx.
  assert (Hmin : ∀ m, (m == x) = true ->
            ((if F64.is_nan m then m else if m <? hi then m else hi) == x)
            = true).
  { intros m Hm. rewrite (eqb_not_nan_l m x Hm).
    destruct (m <? hi) eqn:Hlt; [exact Hm |].
    apply eqb_sym. unfold F64.ltb, SFltb in Hlt.
    rewrite (eqb_compare_l m x hi Hm) in Hlt.
    unfold F64.leb, SFleb in Hhi. unfold F64.eqb, SFeqb.
    destruct (SFcompare x hi) as [[]|]; congruence. }
  destruct (lo <? x) eqn:Hlt.
  - apply Hmin, eqb_refl, Hnx.
  - apply Hmin. unfold F64.ltb, SFltb in Hlt.
    unfold F64.leb, SFleb in Hlo. unfold F64.eqb, SFeqb.
    destruct (SFcompare lo x) as [[]|]; congruence.
Qed.
End Comparisons.

(** ** Arithmetic around zero *)

Section Zero.
Implicit Types x y a b : float.

Lemma sub_eq_zero a b :
  (a == b) = true -> F64.is_finite a = true -> F64.is_zero (a - b) = true.
Proof.
  intros Heq Hfin.
  destruct (eqb_cases a b Heq) as [<- | [Ha Hb]].
  - destruct a as [s | s | | s m e]; try discriminate.
    + destruct s; reflexivity.
    + unfold F64.sub, SFsub. rewrite Z.sub_diag. reflexivity.
  - destruct a as [sa | | |], b as [sb | | |]; try discriminate.
    destruct sa, sb; reflexivity.
Qed.

Lemma zero_div a b :
  F64.is_zero a = true -> F64.is_nan b = false -> F64.is_zero b = false ->
  F64.is_zero (a / b) = true.
Proof. destruct a, b; try discriminate; reflexivity. Qed.

Lemma zero_mul a b :
  F64.is_zero a = true -> F64.is_finite b = true ->
  F64.is_zero (a * b) = true.
Proof. destruct a, b; try discriminate; reflexivity. Qed.

Lemma add_zero x a :
  F64.is_nan x = false -> F64.is_zero a = true -> (x + a == x) = true.
Proof.
  intros Hx Ha.
  destruct a as [sa | | |]; try discriminate.
  destruct x as [s | s | | s m e]; try discriminate.
  - destruct s, sa; reflexivity.
  - destruct s; reflexivity.
  - change (S754_finite s m e + S754_zero sa) with (S754_finite s m e).
    apply eqb_refl. reflexivity.
Qed.

Lemma eqb_trans a b c :
  (a == b) = true -> (b == c) = true -> (a == c) = true.
Proof.
  intros Hab Hbc. unfold F64.eqb, SFeqb.
  rewrite (eqb_compare_l a b c Hab). exact Hbc.
Qed.
End Zero.

(** ** The order of binary64 numbers *)

Section Order.
Implicit Types x y a b c lo hi : float.

Lemma lex_compare_Lt (k1 k2 : Z * Z * Z) :
  lex_compare k1 k2 = Lt <->
  let '(c1, e1, m1) := k1 in
  let '(c2, e2, m2) := k2 in
  (c1 < c2 \/ (c1 = c2 /\ (e1 < e2 \/ (e1 = e2 /\ m1 < m2))))%Z.
Proof.
  destruct k1 as [[c1 e1] m1], k2 as [[c2 e2] m2]; unfold lex_compare.
  destruct (Z.compare_spec c1 c2), (Z.compare_spec e1 e2),
    (Z.compare_spec m1 m2); split; intros Hk; try discriminate;
    try reflexivity; lia.
Qed.

Lemma lex_compare_Eq (k1 k2 : Z * Z * Z) :
  lex_compare k1 k2 = Eq <-> k1 = k2.
Proof.
  destruct k1 as [[c1 e1] m1], k2 as [[c2 e2] m2]; unfold lex_compare.
  destruct (Z.compare_spec c1 c2), (Z.compare_spec e1 e2),
    (Z.compare_spec m1 m2); split; intros Hk; try discriminate;
    try reflexivity; try (injection Hk; lia); subst; reflexivity.
Qed.

Lemma compare_rank a b :
  SFcompare a b =
    if F64.is_nan a || F64.is_nan b then None
    else Some (lex_compare (rank a) (rank b)).
Proof.
  destruct a as [sa | sa | | sa ma ea], b as [sb | sb | | sb mb eb];
    try reflexivity;
    try (destruct sa; reflexivity); try (destruct sb; reflexivity);
    try (destruct sa, sb; reflexivity).
  destruct sa, sb; cbn; try reflexivity.
  rewrite Z.compare_opp, (Z.compare_antisym ea eb).
  destruct (ea ?= eb)%Z; reflexivity.
Qed.

(** The three comparisons, by rank. *)
Lemma ltb_rank a b :
  (a <? b) = true <->
  F64.is_nan a = false /\ F64.is_nan b = false /\
  lex_compare (rank a) (rank b) = Lt.
Proof.
  unfold F64.ltb, SFltb. rewrite compare_rank.
  destruct (F64.is_nan a), (F64.is_nan b); cbn;
    try (split; [discriminate | intros (? & ? & ?); discriminate]).
  destruct (lex_compare (rank a) (rank b)); split; intros Hk;
    try discriminate; auto; destruct Hk as (_ & _ & Hk); discriminate.
Qed.

Lemma leb_rank a b :
  (a <=? b) = true <->
  F64.is_nan a = false /\ F64.is_nan b = false /\
  lex_compare (rank a) (rank b) <> Gt.
Proof.
  unfold F64.leb, SFleb. rewrite compare_rank.
  destruct (F64.is_nan a), (F64.is_nan b); cbn;
    try (split; [discriminate | intros (? & ? & ?); discriminate]).
  destruct (lex_compare (rank a) (rank b)); split; intros Hk;
    try discriminate; auto; destruct Hk as (_ & _ & Hk); congruence.
Qed.

Lemma lex_compare_Gt (k1 k2 : Z * Z * Z) :
  lex_compare k1 k2 = Gt <-> lex_compare k2 k1 = Lt.
Proof.
  destruct k1 as [[c1 e1] m1], k2 as [[c2 e2] m2]; unfold lex_compare.
  rewrite (Z.compare_antisym c1 c2), (Z.compare_antisym e1 e2),
    (Z.compare_antisym m1 m2).
  destruct (c1 ?= c2)%Z, (e1 ?= e2)%Z, (m1 ?= m2)%Z; cbn;
    split; intros Hk; congruence.
Qed.

Lemma ltb_leb a b : (a <? b) = true -> (a <=? b) = true.
Proof.
  unfold F64.ltb, SFltb, F64.leb, SFleb.
  destruct (SFcompare a b) as [[]|]; congruence.
Qed.

(** [a <= b] rules out [b < a]. *)
Lemma leb_not_ltb a b : (a <=? b) = true -> (b <? a) = false.
Proof.
  intros Hle. apply leb_rank in Hle as (Ha & Hb & Hk).
  apply not_true_is_false. intros Hlt.
  apply ltb_rank in Hlt as (_ & _ & Hlt).
  apply Hk, lex_compare_Gt, Hlt.
Qed.

(** Two numbers are always comparable. *)
Lemma not_ltb_leb a b :
  F64.is_nan a = false -> F64.is_nan b = false ->
  (a <? b) = false -> (b <=? a) = true.
Proof.
  intros Ha Hb Hlt. apply leb_rank. repeat split; auto.
  intros Hgt. apply lex_compare_Gt in Hgt.
  assert ((a <? b) = true) by (apply ltb_rank; auto). congruence.
Qed.

Lemma ltb_leb_trans a b c :
  (a <? b) = true -> (b <=? c) = true -> (a <? c) = true.
Proof.
  intros Hab Hbc.
  apply ltb_rank in Hab as (Ha & Hb & Hab).
  apply leb_rank in Hbc as (_ & Hc & Hbc).
  apply ltb_rank. repeat split; auto.
  destruct (lex_compare (rank b) (rank c)) eqn:Hk; [| | congruence].
  - apply lex_compare_Eq in Hk. rewrite <- Hk. exact Hab.
  - apply lex_compare_Lt in Hab. apply lex_compare_Lt in Hk.
    apply lex_compare_Lt.
    destruct (rank a) as [[c1 e1] m1], (rank b) as [[c2 e2] m2],
      (rank c) as [[c3 e3] m3]. lia.
Qed.

Lemma leb_ltb_trans a b c :
  (a <=? b) = true -> (b <? c) = true -> (a <? c) = true.
Proof.
  intros Hab Hbc.
  apply leb_rank in Hab as (Ha & Hb & Hab).
  apply ltb_rank in Hbc as (_ & Hc & Hbc).
  apply ltb_rank. repeat split; auto.
  destruct (lex_compare (rank a) (rank b)) eqn:Hk; [| | congruence].
  - apply lex_compare_Eq in Hk. rewrite Hk. exact Hbc.
  - apply lex_compare_Lt in Hbc. apply lex_compare_Lt in Hk.
    apply lex_compare_Lt.
    destruct (rank a) as [[c1 e1] m1], (rank b) as [[c2 e2] m2],
      (rank c) as [[c3 e3] m3]. lia.
Qed.
End Order.

(** ** Clipping at and beyond the bounds *)

Section Clip.
Implicit Types x lo hi : float.

(** At or above the upper bound, [np.clip] returns the upper bound. *)
Lemma clip_at_max x lo hi :
  (lo <=? hi) = true -> (hi <=? x) = true -> F64.clip x lo hi = hi.
Proof.
  intros Hle Hx.
  destruct (leb_not_nan hi x Hx) as [Hnhi Hnx].
  destruct (leb_not_nan lo hi Hle) as [Hnlo _].
  unfold F64.clip, F64.maximum, F64.minimum. rewrite Hnx.
  destruct (lo <? x) eqn:Hlt.
  - rewrite Hnx, (leb_not_ltb hi x Hx). reflexivity.
  - rewrite Hnlo. destruct (lo <? hi) eqn:Hlh; [| reflexivity].
    rewrite (ltb_leb_trans lo hi x Hlh Hx) in Hlt. discriminate.
Qed.

(** At or below the lower bound, [np.clip] returns a number equal to the
    lower bound. *)
Lemma clip_at_min x lo hi :
  (lo <=? hi) = true -> (x <=? lo) = true -> (F64.clip x lo hi == lo) = true.
Proof.
  intros Hle Hx.
  destruct (leb_not_nan x lo Hx) as [Hnx Hnlo].
  unfold F64.clip, F64.maximum, F64.minimum.
  rewrite Hnx, (leb_not_ltb x lo Hx), Hnlo.
  destruct (lo <? hi) eqn:Hlh; [apply eqb_refl, Hnlo |].
  apply eqb_sym. unfold F64.ltb, SFltb in Hlh.
  unfold F64.leb, SFleb in Hle. unfold F64.eqb, SFeqb.
  destruct (SFcompare lo hi) as [[]|]; congruence.
Qed.

(** With the bounds the wrong way round, [np.clip] returns the upper bound
    for every number. *)
Lemma clip_inverted x lo hi :
  (hi <? lo) = true -> F64.is_nan x = false -> F64.clip x lo hi = hi.
Proof.
  intros Hinv Hnx.
  assert (Hnlo : F64.is_nan lo = false).
  { apply ltb_rank in Hinv. tauto. }
  assert (Hhl : (lo <? hi) = false).
  { apply leb_not_ltb, ltb_leb, Hinv. }
  unfold F64.clip, F64.maximum, F64.minimum. rewrite Hnx.
  destruct (lo <? x) eqn:Hlt.
  - rewrite Hnx. destruct (x <? hi) eqn:Hxh; [| reflexivity].
    assert (Hlh : (lo <? hi) = true).
    { apply (ltb_leb_trans lo x hi Hlt), ltb_leb, Hxh. }
    congruence.
  - rewrite Hnlo, Hhl. reflexivity.
Qed.
End Clip.

(** ** Lemmas on the convergence test *)

Lemma one_is_not_minus_one (x : float) :
  (x == one) = true → (x == minus_one) = false.
Proof.
  destruct x as [s | s | | s m e]; try discriminate;
    destruct s; first [discriminate | reflexivity].
Qed.

Lemma at_tap_limit_saturated (self : ContinuousTapControl) (u : float) :
  at_tap_limit self u = true ↔ saturated self u (tap_pos self).
Proof.
  unfold at_tap_limit, saturated; cbv zeta.
  destruct (tap_side_coeff self * tap_sign self == one) eqn:Hone.
  - rewrite (one_is_not_minus_one _ Hone).
    destruct (u <? u_set self), (u_set self <? u),
      (tap_pos self == tap_min self), (tap_pos self == tap_max self);
      cbn; intuition congruence.
  - destruct (tap_side_coeff self * tap_sign self == minus_one),
      (u <? u_set self), (u_set self <? u),
      (tap_pos self == tap_min self), (tap_pos self == tap_max self);
      cbn; intuition congruence.
Qed.

Lemma at_tap_limit_set_tap_pos (self : ContinuousTapControl) (u tp : float) :
  at_tap_limit (set_tap_pos self tp) u = true ↔ saturated self u tp.
Proof. apply (at_tap_limit_saturated (set_tap_pos self tp) u). Qed.

(** What [is_converged] does on an element that is in service: one equation
    for the three ways out. *)
Lemma is_converged_in_service (net : pandapowerNet)
    (self : ContinuousTapControl) (r : trafo_row) (b : res_bus_row) :
  net_table net (trafotable self) !! tid self = Some r →
  in_service r = true →
  res_bus net !! controlled_bus self = Some b →
  is_converged net self =
    Ok (check_tap_bounds self &&
          at_tap_limit (set_tap_pos self (col_tap_pos r)) (vm_pu b)
        || within_tolerance self (vm_pu b),
        set_tap_pos self (col_tap_pos r)).
Proof.
  intros Hrow Hin Hbus.
  unfold is_converged, at_, within_tolerance. rewrite Hrow, Hbus; cbn.
  rewrite Hin; cbn.
  destruct (check_tap_bounds self &&
            at_tap_limit (set_tap_pos self (col_tap_pos r)) (vm_pu b));
    reflexivity.
Qed.

(** ** The constructor *)

Lemma nominal_ratio_ok (net : pandapowerNet) (t : gmap Z trafo_row) (tid : Z)
    (r : trafo_row) (far : float) (near_bus : trafo_row -> option Z)
    (ih inear : Z) (bh bnear : bus_row) :
  t !! tid = Some r ->
  hv_bus r = Some ih -> bus net !! ih = Some bh ->
  near_bus r = Some inear -> bus net !! inear = Some bnear ->
  nominal_ratio net t tid (Ok far) near_bus
  = Ok (far / vn_hv_kv r * vn_kv bh / vn_kv bnear).
Proof.
  intros Hrow Hhv Hbh Hnear Hbnear.
  unfold nominal_ratio, bus_vn_kv, at_; cbn.
  rewrite Hrow; cbn. rewrite Hhv; cbn. rewrite Hbh; cbn.
  rewrite Hnear; cbn. rewrite Hbnear; cbn. reflexivity.
Qed.

Lemma init_t_nom_2W (net : pandapowerNet) (t : gmap Z trafo_row) (tid : Z)
    (side : string) :
  init_t_nom net t tid side "2W"
  = Some <$> nominal_ratio net t tid (at_ t tid vn_lv_kv) lv_bus.
Proof. reflexivity. Qed.

Lemma init_t_nom_unassigned (net : pandapowerNet) (t : gmap Z trafo_row)
    (tid : Z) (side trafotype : string) :
  trafotype ≠ "2W" -> side ≠ "lv" -> side ≠ "mv" ->
  init_t_nom net t tid side trafotype = Ok None.
Proof.
  intros H2w Hlv Hmv. unfold init_t_nom.
  repeat case_decide; try contradiction. reflexivity.
Qed.

Lemma built_t_nom_init (base : TrafoController) (net : pandapowerNet)
    (tid_arg : Z) (u_set_arg tol_arg : float) (side trafotype_arg : string)
    (chk : bool) :
  built_t_nom (__init__ (Ok base) net tid_arg u_set_arg tol_arg side
                 trafotype_arg chk)
  = init_t_nom net (net_table net (base_trafotable base)) tid_arg side
      trafotype_arg.
Proof.
  unfold built_t_nom, __init__; cbn.
  destruct (init_t_nom _ _ _ _ _) as [tn | e]; reflexivity.
Qed.

(** C5: the constructor sets [t_nom] to
    [vn_far / vn_hv * vn_kv(hv_bus) / vn_kv(near_bus)], with the low-voltage
    winding and bus for a two-winding transformer and for regulation on the
    low-voltage side, and the medium-voltage winding and bus for a
    three-winding transformer regulated on the medium-voltage side.  With
    110/20 kV ratings on 110/20 kV buses the factor is exactly 1.0, and with
    a step size of 1.5 percent a deviation of -0.02 gives a tap correction
    between -1.334 and -1.333. *)
Theorem init_nominal_ratio_factor (base : TrafoController)
    (net : pandapowerNet) (tid_arg : Z) (u_set_arg tol_arg : float)
    (side trafotype_arg : string) (chk : bool)
    (r : trafo_row) (ih : Z) (bh : bus_row) :
  net_table net (base_trafotable base) !! tid_arg = Some r ->
  hv_bus r = Some ih ->
  bus net !! ih = Some bh ->
  let built :=
    built_t_nom (__init__ (Ok base) net tid_arg u_set_arg tol_arg side
                   trafotype_arg chk) in
  (∀ (il : Z) (bl : bus_row),
     trafotype_arg = "2W" ∨ side = "lv" ->
     lv_bus r = Some il -> bus net !! il = Some bl ->
     built = Ok (Some (vn_lv_kv r / vn_hv_kv r * vn_kv bh / vn_kv bl)) ∧
     (vn_lv_kv r = F64.of_Z 20 -> vn_hv_kv r = F64.of_Z 110 ->
      vn_kv bh = F64.of_Z 110 -> vn_kv bl = F64.of_Z 20 ->
      built = Ok (Some one))) ∧
  (∀ (vn_mv : float) (im : Z) (bm : bus_row),
     trafotype_arg ≠ "2W" -> side = "mv" ->
     vn_mv_kv r = Some vn_mv ->
     mv_bus r = Some im -> bus net !! im = Some bm ->
     built = Ok (Some (vn_mv / vn_hv_kv r * vn_kv bh / vn_kv bm))) ∧
  (let tc := tap_correction (F64.frac (-2) 100) (F64.frac 15 10) one in
   (F64.frac (-1334) 1000 <? tc) = true ∧
   (tc <? F64.frac (-1333) 1000) = true ∧
   (F64.frac 1333 1000 <? F64.abs tc) = true ∧
   (F64.abs tc <? F64.frac 1334 1000) = true).
Proof.
  intros Hrow Hhv Hbh built.
  assert (Hlv : ∀ il bl, trafotype_arg = "2W" ∨ side = "lv" ->
            lv_bus r = Some il -> bus net !! il = Some bl ->
            built = Ok (Some (vn_lv_kv r / vn_hv_kv r * vn_kv bh / vn_kv bl))).
  { intros il bl Hcase Hil Hbl. unfold built.
    rewrite built_t_nom_init. unfold init_t_nom.
    assert (Hratio :
      Some <$> nominal_ratio net (net_table net (base_trafotable base))
                 tid_arg
                 (at_ (net_table net (base_trafotable base)) tid_arg vn_lv_kv)
                 lv_bus
      = Ok (Some (vn_lv_kv r / vn_hv_kv r * vn_kv bh / vn_kv bl))).
    { unfold at_ at 1. rewrite Hrow.
      rewrite (nominal_ratio_ok net _ tid_arg r (vn_lv_kv r) lv_bus
                 ih il bh bl Hrow Hhv Hbh Hil Hbl).
      reflexivity. }
    destruct Hcase as [H2w | Hside].
    - rewrite decide_True by exact H2w. exact Hratio.
    - case_decide; [exact Hratio |].
      rewrite decide_True by exact Hside. exact Hratio. }
  split; [| split].
  - intros il bl Hcase Hil Hbl. split; [apply (Hlv il bl Hcase Hil Hbl) |].
    intros Hvlv Hvhv Hbhv Hblv.
    rewrite (Hlv il bl Hcase Hil Hbl), Hvlv, Hvhv, Hbhv, Hblv. reflexivity.
  - intros vn_mv im bm H3w Hside Hmv Him Hbm. unfold built.
    rewrite built_t_nom_init. unfold init_t_nom.
    rewrite decide_False by exact H3w.
    subst side. rewrite decide_False by discriminate.
    rewrite decide_True by reflexivity.
    unfold at_ at 1. rewrite Hrow.
    change (Ok (vn_mv_kv r) ≫= present) with (present (vn_mv_kv r)).
    rewrite Hmv. change (present (Some vn_mv)) with (Ok vn_mv).
    rewrite (nominal_ratio_ok net _ tid_arg r vn_mv mv_bus
               ih im bh bm Hrow Hhv Hbh Him Hbm).
    reflexivity.
  - repeat split; reflexivity.
Qed.

Lemma init_nominal_ratio_factor_witness :
  built_t_nom (__init__ (Ok (Example.base (F64.of_Z 0)))
                 (Example.net (F64.of_Z 0) one true) 0%Z one
                 (F64.frac 1 1000) "lv" "2W" true)
  = Ok (Some one) ∧
  built_t_nom (__init__ (Ok (Example3w.base 1)) Example3w.net 0%Z one
                 (F64.frac 1 1000) "mv" "3W" true)
  = Ok (Some (F64.of_Z 20 / F64.of_Z 110 * F64.of_Z 110 / F64.of_Z 20)).
Proof.
  split.
  - refine (proj2 (proj1 (init_nominal_ratio_factor
              (Example.base (F64.of_Z 0)) (Example.net (F64.of_Z 0) one true)
              0%Z one (F64.frac 1 1000) "lv" "2W" true
              (Example.row (F64.of_Z 0) true) 0%Z {| vn_kv := F64.of_Z 110 |}
              eq_refl eq_refl eq_refl)
            1%Z {| vn_kv := F64.of_Z 20 |} (or_introl eq_refl)
            eq_refl eq_refl) eq_refl eq_refl eq_refl eq_refl).
  - refine (proj1 (proj2 (init_nominal_ratio_factor
              (Example3w.base 1) Example3w.net
              0%Z one (F64.frac 1 1000) "mv" "3W" true
              Example3w.row 0%Z {| vn_kv := F64.of_Z 110 |}
              eq_refl eq_refl eq_refl))
            (F64.of_Z 20) 1%Z {| vn_kv := F64.of_Z 20 |} _ eq_refl
            eq_refl eq_refl eq_refl).
    discriminate.
Defined.

(** The factor is evaluated from left to right, [((far / hv) * b_hv) / b_near].
    As real numbers that is the product of the two ratios [far / hv] and
    [b_hv / b_near]; in binary64 the two can differ in the last bit, as for a
    20/0.69 kV transformer between 20 kV and 0.69 kV buses. *)
Remark nominal_ratio_evaluation_order :
  F64.frac 69 100 / F64.of_Z 20 * F64.of_Z 20 / F64.frac 69 100 = one ∧
  F64.frac 69 100 / F64.of_Z 20 * (F64.of_Z 20 / F64.frac 69 100)
  = S754_finite false 9007199254740991 (-53).
Proof. split; reflexivity. Qed.

(** C10: for a two-winding transformer the nominal ratio factor does not
    depend on the [side] argument: two constructions on the same network and
    table that differ in [side] (and in whatever the base constructor derives
    from it) leave the same [t_nom], computed from the low-voltage rating and
    the low-voltage bus in both. *)
Theorem init_two_winding_side_independent (base1 base2 : TrafoController)
    (net : pandapowerNet) (tid_arg : Z) (u_set_arg tol_arg : float)
    (side1 side2 : string) (chk : bool) :
  base_trafotable base1 = base_trafotable base2 ->
  let built1 :=
    built_t_nom (__init__ (Ok base1) net tid_arg u_set_arg tol_arg side1
                   "2W" chk) in
  let built2 :=
    built_t_nom (__init__ (Ok base2) net tid_arg u_set_arg tol_arg side2
                   "2W" chk) in
  built1 = built2 ∧
  ∀ (r : trafo_row) (ih il : Z) (bh bl : bus_row),
    net_table net (base_trafotable base1) !! tid_arg = Some r ->
    hv_bus r = Some ih -> bus net !! ih = Some bh ->
    lv_bus r = Some il -> bus net !! il = Some bl ->
    built1 = Ok (Some (vn_lv_kv r / vn_hv_kv r * vn_kv bh / vn_kv bl)) ∧
    built2 = Ok (Some (vn_lv_kv r / vn_hv_kv r * vn_kv bh / vn_kv bl)).
Proof.
  intros Htable built1 built2.
  assert (Hsame : built1 = built2).
  { unfold built1, built2. rewrite !built_t_nom_init, !init_t_nom_2W, Htable.
    reflexivity. }
  split; [exact Hsame |].
  intros r ih il bh bl Hrow Hhv Hbh Hlv Hbl.
  rewrite <- Hsame. enough (built1 = Ok (Some (vn_lv_kv r / vn_hv_kv r
                                        * vn_kv bh / vn_kv bl))) by auto.
  unfold built1. rewrite built_t_nom_init, init_t_nom_2W.
  unfold at_ at 1. rewrite Hrow.
  rewrite (nominal_ratio_ok net _ tid_arg r (vn_lv_kv r) lv_bus
             ih il bh bl Hrow Hhv Hbh Hlv Hbl).
  reflexivity.
Qed.


(** Regulated on the low-voltage side and on the high-voltage side, the
    110/20 kV transformer gets the factor 1.0 both times. *)
Lemma init_two_winding_side_independent_witness :
  built_t_nom (__init__ (Ok (Example.base (F64.of_Z 0)))
                 (Example.net (F64.of_Z 0) one true) 0%Z one
                 (F64.frac 1 1000) "lv" "2W" true)
  = built_t_nom (__init__ (Ok (Example.base_hv (F64.of_Z 0)))
                   (Example.net (F64.of_Z 0) one true) 0%Z one
                   (F64.frac 1 1000) "hv" "2W" true).
Proof.
  exact (proj1 (init_two_winding_side_independent
                  (Example.base (F64.of_Z 0)) (Example.base_hv (F64.of_Z 0))
                  (Example.net (F64.of_Z 0) one true) 0%Z one
                  (F64.frac 1 1000) "lv" "hv" true eq_refl)).
Defined.

(** The controller of the example is the one the constructor builds. *)
Lemma example_controller_built (tp : float) (bounds ins : bool) (u : float) :
  __init__ (Ok (Example.base tp)) (Example.net tp u ins) 0%Z one
    (F64.frac 1 1000) "lv" "2W" bounds
  = Ok (Example.controller tp bounds).
Proof. reflexivity. Qed.

(** Outside the three branches of lines 47-58 the constructor returns an
    object on which [t_nom] was never assigned. *)
Lemma init_unsupported_side (base : TrafoController) (net : pandapowerNet)
    (tid_arg : Z) (u_set_arg tol_arg : float) (side trafotype_arg : string)
    (chk : bool) :
  trafotype_arg ≠ "2W" -> side ≠ "lv" -> side ≠ "mv" ->
  ∃ self,
    __init__ (Ok base) net tid_arg u_set_arg tol_arg side trafotype_arg chk
    = Ok self ∧
    t_nom self = None.
Proof.
  intros H2w Hlv Hmv. unfold __init__, mbind, result_bind.
  rewrite (init_t_nom_unassigned _ _ _ _ _ H2w Hlv Hmv).
  eexists. split; reflexivity.
Qed.

(** A failing base constructor is the only way the constructor fails before
    the tables are read. *)
Lemma init_base_raises (e : exn) (net : pandapowerNet) (tid_arg : Z)
    (u_set_arg tol_arg : float) (side trafotype_arg : string) (chk : bool) :
  __init__ (Raise e) net tid_arg u_set_arg tol_arg side trafotype_arg chk
  = Raise e.
Proof. reflexivity. Qed.

(** C7 (a ConfigurationError on every unsupported topology/side pair) is not
    what the code does: for a three-winding transformer with side ["hv"],
    once the base constructor has returned, the constructor returns an object
    too, and [t_nom] is unassigned on it. *)
Theorem init_three_winding_hv_returns :
  ∃ self,
    __init__ (Ok (Example3w.base 0)) Example3w.net 0%Z one (F64.frac 1 1000)
      "hv" "3W" true
    = Ok self ∧
    t_nom self = None.
Proof.
  apply init_unsupported_side; discriminate.
Qed.

(** ** One control step *)

Lemma net_table_set_net_table (net : pandapowerNet) (name : trafotable_name)
    (t : gmap Z trafo_row) :
  net_table (set_net_table net name t) name = t.
Proof. destruct name; reflexivity. Qed.

Lemma control_step_ok (net : pandapowerNet) (self : ContinuousTapControl)
    (b : res_bus_row) (tn : float) :
  res_bus net !! controlled_bus self = Some b ->
  t_nom self = Some tn ->
  control_step net self =
    Ok (set_net_table net (trafotable self)
          (at_put_tap_pos (trafotable self)
             (net_table net (trafotable self)) (tid self)
             (stepped_tap_pos self (vm_pu b) tn)),
        set_tap_pos self (stepped_tap_pos self (vm_pu b) tn)).
Proof.
  intros Hbus Htn. unfold control_step, at_. rewrite Hbus, Htn. reflexivity.
Qed.

Lemma at_put_tap_pos_read (name : trafotable_name) (t : gmap Z trafo_row)
    (label : Z) (v : float) :
  at_ (at_put_tap_pos name t label v) label col_tap_pos = Ok v.
Proof. unfold at_, at_put_tap_pos. rewrite lookup_insert_eq. reflexivity. Qed.

Lemma moved_tap_pos_not_nan (self : ContinuousTapControl) (u tn : float) :
  valid_step_input self u tn ->
  F64.is_nan (moved_tap_pos self u tn) = false.
Proof.
  intros (Hu & Hset & Htp & [Hs Hs0] & [Ht Ht0] & [Hc Hc0] & [Hg Hg0]).
  unfold moved_tap_pos, tap_correction; cbv zeta.
  apply add_not_nan; [exact Htp |].
  apply mul_not_nan; [| exact Hg | exact Hg0].
  apply mul_not_nan; [| exact Hc | exact Hc0].
  apply div_not_nan; [| exact Ht | exact Ht0].
  apply mul_not_nan; [| reflexivity | reflexivity].
  apply div_not_nan; [| exact Hs | exact Hs0].
  apply sub_not_nan; assumption.
Qed.

Lemma finite_not_nan (x : float) : F64.is_finite x = true -> F64.is_nan x = false.
Proof. destruct x; [reflexivity | discriminate | discriminate | reflexivity]. Qed.

Lemma leb_eqb_l (a b c : float) :
  (a == b) = true -> (c <=? b) = true -> (c <=? a) = true.
Proof.
  intros Hab H. unfold F64.leb, SFleb in *.
  rewrite (eqb_compare_r a b c Hab). exact H.
Qed.

Lemma leb_eqb_r (a b c : float) :
  (a == b) = true -> (b <=? c) = true -> (a <=? c) = true.
Proof.
  intros Hab H. unfold F64.leb, SFleb in *.
  rewrite (eqb_compare_l a b c Hab). exact H.
Qed.

(** [np.clip] clamps. *)
Lemma clip_clamped (x lo hi : float) : clamped x lo hi (F64.clip x lo hi).
Proof.
  split.
  - intros Hnan. unfold F64.clip, F64.maximum, F64.minimum.
    rewrite Hnan, Hnan. exact Hnan.
  - intros Hnum. repeat split.
    + apply clip_in_bounds; assumption.
    + apply clip_in_bounds; assumption.
    + apply clip_inside.
    + intros; apply clip_at_max; assumption.
    + intros; apply clip_at_min; assumption.
    + intros; apply clip_inverted; assumption.
Qed.

(** *** The tap correction at equilibrium *)

Section Equilibrium.
Implicit Types a b x : float.

Lemma add_not_nan_inv a b :
  F64.is_nan (a + b) = false -> F64.is_nan a = false ∧ F64.is_nan b = false.
Proof. destruct a, b; try discriminate; auto. Qed.

Lemma sub_not_nan_inv a b :
  F64.is_nan (a - b) = false -> F64.is_nan a = false ∧ F64.is_nan b = false.
Proof. destruct a, b; try discriminate; auto. Qed.

Lemma mul_not_nan_inv a b :
  F64.is_nan (a * b) = false -> F64.is_nan a = false ∧ F64.is_nan b = false.
Proof. destruct a, b; try discriminate; auto. Qed.

Lemma div_not_nan_inv a b :
  F64.is_nan (a / b) = false -> F64.is_nan a = false ∧ F64.is_nan b = false.
Proof. destruct a, b; try discriminate; auto. Qed.

Lemma zero_mul_inv a b :
  F64.is_zero a = true -> F64.is_nan (a * b) = false ->
  F64.is_finite b = true.
Proof. destruct a, b; try discriminate; auto. Qed.

Lemma zero_div_inv a b :
  F64.is_zero a = true -> F64.is_nan (a / b) = false ->
  F64.is_nan b = false ∧ F64.is_zero b = false.
Proof. destruct a, b; try discriminate; auto. Qed.

Lemma sub_eq_not_nan_inv a b :
  (a == b) = true -> F64.is_nan (a - b) = false -> F64.is_finite a = true.
Proof.
  intros Heq Hnum. destruct (eqb_cases a b Heq) as [<- | [Ha _]].
  - destruct a as [s | s | | s m e]; try reflexivity; try discriminate.
    destruct s; discriminate.
  - destruct a; try discriminate; reflexivity.
Qed.

(** At equilibrium the moved position is equal to the tap position exactly
    when it is a number, and that is exactly [equilibrium_input]. *)
Lemma moved_at_equilibrium (self : ContinuousTapControl) (u tn : float) :
  (u == u_set self) = true ->
  equilibrium_input self u tn ->
  (moved_tap_pos self u tn == tap_pos self) = true.
Proof.
  intros Heq (Hu & [Hs Hs0] & [Ht Ht0] & Hc & Hg & Htp).
  unfold moved_tap_pos, tap_correction; cbv zeta.
  apply add_zero; [exact Htp |].
  apply zero_mul; [| exact Hg].
  apply zero_mul; [| exact Hc].
  apply zero_div; [| exact Ht | exact Ht0].
  apply zero_mul; [| reflexivity].
  apply zero_div; [| exact Hs | exact Hs0].
  apply sub_eq_zero; assumption.
Qed.

Lemma moved_number_at_equilibrium (self : ContinuousTapControl)
    (u tn : float) :
  (u == u_set self) = true ->
  F64.is_nan (moved_tap_pos self u tn) = false ->
  equilibrium_input self u tn.
Proof.
  intros Heq Hnum. unfold moved_tap_pos, tap_correction in Hnum.
  cbv zeta in Hnum.
  apply add_not_nan_inv in Hnum as [Htp H6].
  pose proof (mul_not_nan_inv _ _ H6) as [H5 _].
  pose proof (mul_not_nan_inv _ _ H5) as [H4 _].
  pose proof (div_not_nan_inv _ _ H4) as [H3 _].
  pose proof (mul_not_nan_inv _ _ H3) as [H2 _].
  pose proof (div_not_nan_inv _ _ H2) as [H1 _].
  pose proof (sub_eq_not_nan_inv _ _ Heq H1) as Hu.
  pose proof (sub_eq_zero _ _ Heq Hu) as Z1.
  pose proof (zero_div_inv _ _ Z1 H2) as [Hs Hs0].
  pose proof (zero_div _ _ Z1 Hs Hs0) as Z2.
  pose proof (zero_mul _ hundred Z2 eq_refl) as Z3.
  pose proof (zero_div_inv _ _ Z3 H4) as [Ht Ht0].
  pose proof (zero_div _ _ Z3 Ht Ht0) as Z4.
  pose proof (zero_mul_inv _ _ Z4 H5) as Hc.
  pose proof (zero_mul _ _ Z4 Hc) as Z5.
  pose proof (zero_mul_inv _ _ Z5 H6) as Hg.
  repeat split; assumption.
Qed.

Lemma eqb_not_nan_r a b : (a == b) = true -> F64.is_nan b = false.
Proof. intros H. apply (eqb_not_nan_l b a), eqb_sym, H. Qed.

(** When the bounds are numbers, clipping leaves a number equal to itself
    exactly when it is within ordered bounds, or at the upper bound of bounds
    the wrong way round. *)
Lemma clip_keeps (x lo hi : float) :
  F64.is_nan lo = false -> F64.is_nan hi = false ->
  (F64.clip x lo hi == x) = true ↔
  ((lo <=? x) = true ∧ (x <=? hi) = true) ∨
  ((hi <? lo) = true ∧ (x == hi) = true).
Proof.
  intros Hlo Hhi. split.
  - intros Hkeep. pose proof (eqb_not_nan_r _ _ Hkeep) as Hx.
    destruct (hi <? lo) eqn:Hinv.
    + right. split; [reflexivity |].
      rewrite (clip_inverted x lo hi Hinv Hx) in Hkeep.
      apply eqb_sym, Hkeep.
    + left. pose proof (not_ltb_leb hi lo Hhi Hlo Hinv) as Hle.
      destruct (clip_in_bounds x lo hi Hle Hx) as [H1 H2]. split.
      * unfold F64.leb, SFleb in *.
        rewrite <- (eqb_compare_r _ _ lo Hkeep). exact H1.
      * unfold F64.leb, SFleb in *.
        rewrite <- (eqb_compare_l _ _ hi Hkeep). exact H2.
  - intros [[H1 H2] | [Hinv Heq]].
    + apply clip_inside; assumption.
    + rewrite (clip_inverted x lo hi Hinv (eqb_not_nan_l _ _ Heq)).
      apply eqb_sym, Heq.
Qed.
End Equilibrium.

(** C2: a control step sets the tap position to the old one plus
    [(u - u_set) / tap_step_percent * 100 / t_nom * tap_side_coeff * tap_sign],
    clamped to the range from [tap_min] to [tap_max] if [check_tap_bounds] is
    set and left as it is if not, and writes that value to the [tap_pos] cell
    of the element in its table; the other cells of the row, the other rows
    and the other tables stay as they are.  The bounds are numbers when they
    are enforced. *)
Theorem control_step_update (net : pandapowerNet)
    (self : ContinuousTapControl) (b : res_bus_row) (tn : float) :
  res_bus net !! controlled_bus self = Some b ->
  t_nom self = Some tn ->
  bounds_are_numbers self ->
  let moved :=
    tap_pos self
    + (vm_pu b - u_set self) / tap_step_percent self * hundred / tn
      * tap_side_coeff self * tap_sign self in
  ∃ net' new,
    control_step net self = Ok (net', set_tap_pos self new) ∧
    (check_tap_bounds self = false -> new = moved) ∧
    (check_tap_bounds self = true ->
       clamped moved (tap_min self) (tap_max self) new) ∧
    at_ (net_table net' (trafotable self)) (tid self) col_tap_pos = Ok new ∧
    (∀ r, net_table net (trafotable self) !! tid self = Some r ->
       net_table net' (trafotable self) !! tid self
       = Some (with_tap_pos r new)) ∧
    (∀ label, label ≠ tid self ->
       net_table net' (trafotable self) !! label
       = net_table net (trafotable self) !! label) ∧
    (∀ name, name ≠ trafotable self ->
       net_table net' name = net_table net name) ∧
    bus net' = bus net ∧ res_bus net' = res_bus net.
Proof.
  intros Hbus Htn _ moved.
  eexists _, _. split; [apply (control_step_ok net self b tn Hbus Htn) |].
  unfold stepped_tap_pos. fold moved.
  split; [intros ->; reflexivity |].
  split; [intros ->; apply clip_clamped |].
  rewrite net_table_set_net_table.
  split; [apply at_put_tap_pos_read |].
  split.
  { intros r Hr. unfold at_put_tap_pos.
    rewrite lookup_insert_eq, Hr. reflexivity. }
  split.
  { intros label Hne. unfold at_put_tap_pos.
    rewrite lookup_insert_ne by congruence. reflexivity. }
  split.
  { intros name Hne. destruct name, (trafotable self); congruence || reflexivity. }
  destruct (trafotable self); split; reflexivity.
Qed.

(** From tap 8.5 with 1.30 measured against a setpoint of 1.0 the moved
    position is 28.5 and the step stores the upper bound 9; with the bounds
    not enforced, from tap 0 with 0.98 measured it stores
    -1.3333333333333344 (the deviation 0.98 - 1.0 is itself rounded). *)
Lemma control_step_update_witness :
  (∃ net',
     control_step (Example.net (F64.frac 85 10) (F64.frac 130 100) true)
       (Example.controller (F64.frac 85 10) true)
     = Ok (net', set_tap_pos (Example.controller (F64.frac 85 10) true)
                   (F64.of_Z 9)) ∧
     at_ (trafo net') 0%Z col_tap_pos = Ok (F64.of_Z 9)) ∧
  (∃ net',
     control_step (Example.net (F64.of_Z 0) (F64.frac 98 100) true)
       (Example.controller (F64.of_Z 0) false)
     = Ok (net', set_tap_pos (Example.controller (F64.of_Z 0) false)
                   (S754_finite true 6004799503160666 (-52))) ∧
     at_ (trafo net') 0%Z col_tap_pos
     = Ok (S754_finite true 6004799503160666 (-52))).
Proof.
  split.
  - destruct (control_step_update
                (Example.net (F64.frac 85 10) (F64.frac 130 100) true)
                (Example.controller (F64.frac 85 10) true)
                {| vm_pu := F64.frac 130 100 |} one eq_refl eq_refl)
      as (net' & new & Hstep & _ & Hon & Hread & _).
    + intros _. split; reflexivity.
    + destruct (Hon eq_refl) as [_ Hclamp].
      destruct (Hclamp eq_refl) as (_ & _ & Hmax & _).
      assert (Hnew : new = F64.of_Z 9) by (apply Hmax; reflexivity).
      rewrite Hnew in Hstep, Hread. exists net'. split; assumption.
  - destruct (control_step_update
                (Example.net (F64.of_Z 0) (F64.frac 98 100) true)
                (Example.controller (F64.of_Z 0) false)
                {| vm_pu := F64.frac 98 100 |} one eq_refl eq_refl)
      as (net' & new & Hstep & Hoff & _ & Hread & _).
    + intros Hchk. discriminate Hchk.
    + assert (Hnew : new = S754_finite true 6004799503160666 (-52))
        by (rewrite (Hoff eq_refl); reflexivity).
      rewrite Hnew in Hstep, Hread. exists net'. split; assumption.
Defined.

(** The step keeps the tap position between the bounds as soon as the moved
    position is a number. *)
Lemma control_step_clipped (net : pandapowerNet)
    (self : ContinuousTapControl) (b : res_bus_row) (tn : float) :
  res_bus net !! controlled_bus self = Some b ->
  t_nom self = Some tn ->
  check_tap_bounds self = true ->
  (tap_min self <=? tap_max self) = true ->
  F64.is_nan (moved_tap_pos self (vm_pu b) tn) = false ->
  ∃ net' self',
    control_step net self = Ok (net', self') ∧
    ((tap_min self <=? tap_pos self') = true ∧
     (tap_pos self' <=? tap_max self) = true) ∧
    at_ (net_table net' (trafotable self)) (tid self) col_tap_pos
    = Ok (tap_pos self').
Proof.
  intros Hbus Htn Hchk Hle Hnum.
  eexists _, _. split; [apply (control_step_ok net self b tn Hbus Htn) |].
  rewrite net_table_set_net_table. split; [| apply at_put_tap_pos_read].
  cbn [tap_pos set_tap_pos]. unfold stepped_tap_pos. rewrite Hchk.
  apply clip_in_bounds; assumption.
Qed.

(** C4: with [check_tap_bounds] set and [tap_min <= tap_max], after a control
    step on a valid input the tap position lies in [tap_min, tap_max], on the
    object and in the table alike. *)
Theorem control_step_within_bounds (net : pandapowerNet)
    (self : ContinuousTapControl) (b : res_bus_row) (tn : float) :
  res_bus net !! controlled_bus self = Some b ->
  t_nom self = Some tn ->
  valid_step_input self (vm_pu b) tn ->
  check_tap_bounds self = true ->
  (tap_min self <=? tap_max self) = true ->
  ∃ net' self' v,
    control_step net self = Ok (net', self') ∧
    tap_min self' = tap_min self ∧ tap_max self' = tap_max self ∧
    ((tap_min self' <=? tap_pos self') = true ∧
     (tap_pos self' <=? tap_max self') = true) ∧
    at_ (net_table net' (trafotable self')) (tid self') col_tap_pos = Ok v ∧
    ((tap_min self' <=? v) = true ∧ (v <=? tap_max self') = true).
Proof.
  intros Hbus Htn Hvalid Hchk Hle.
  destruct (control_step_clipped net self b tn Hbus Htn Hchk Hle
              (moved_tap_pos_not_nan self (vm_pu b) tn Hvalid))
    as (net' & self' & Hstep & Hin & Hread).
  pose proof Hstep as Hshape.
  rewrite (control_step_ok net self b tn Hbus Htn) in Hshape.
  injection Hshape as _ Hself.
  exists net', self', (tap_pos self').
  rewrite <- Hself in *. auto 10.
Qed.

(** A step that would leave the range: from tap 8.5 with 0.70 measured, the
    moved position is below -9 and the step stops at -9. *)
Lemma control_step_within_bounds_witness :
  ∃ net' self',
    control_step (Example.net (F64.frac 85 10) (F64.frac 70 100) true)
      (Example.controller (F64.frac 85 10) true) = Ok (net', self') ∧
    tap_pos self' = F64.of_Z (-9) ∧
    at_ (trafo net') 0%Z col_tap_pos = Ok (F64.of_Z (-9)).
Proof.
  destruct (control_step_within_bounds
              (Example.net (F64.frac 85 10) (F64.frac 70 100) true)
              (Example.controller (F64.frac 85 10) true)
              {| vm_pu := F64.frac 70 100 |} one eq_refl eq_refl)
    as (net' & self' & v & Hstep & _).
  - repeat split; reflexivity.
  - reflexivity.
  - reflexivity.
  - exists net', self'. split; [exact Hstep |].
    vm_compute in Hstep. injection Hstep as Hnet Hself.
    rewrite <- Hself, <- Hnet. split; reflexivity.
Defined.

(** C8, as stated, fails: with [check_tap_bounds] set, a step at equilibrium
    (measured voltage equal to the setpoint) moves a tap position that starts
    above [tap_max]: from 12 it goes to 9, on the object and in the table. *)
Lemma control_step_equilibrium_counterexample :
  (vm_pu {| vm_pu := one |}
   == u_set (Example.controller (F64.of_Z 12) true)) = true ∧
  ∃ net' self',
    control_step (Example.net (F64.of_Z 12) one true)
      (Example.controller (F64.of_Z 12) true) = Ok (net', self') ∧
    tap_pos self' = F64.of_Z 9 ∧
    (tap_pos self' == tap_pos (Example.controller (F64.of_Z 12) true)) = false ∧
    at_ (trafo net') 0%Z col_tap_pos = Ok (F64.of_Z 9).
Proof.
  split; [reflexivity |].
  eexists _, _. split; [vm_compute; reflexivity |].
  repeat split; reflexivity.
Qed.

(** C8, amended: when the measured voltage equals the setpoint (and the
    bounds are numbers if enforced), a control step leaves the tap position
    equal to what it was, on the object and in the table, exactly when: the
    table held the tap position of the object before the step; the tap
    correction is a zero, that is, the voltage is finite, the step size and
    the nominal ratio factor are non-zero numbers, the signs are finite and
    the tap position is a number; and the bounds keep the position, that is,
    they are not enforced, or the position is already within them (or they
    are the wrong way round and the position is at the upper one). *)
Theorem control_step_equilibrium (net : pandapowerNet)
    (self : ContinuousTapControl) (r : trafo_row) (b : res_bus_row)
    (tn : float) :
  net_table net (trafotable self) !! tid self = Some r ->
  res_bus net !! controlled_bus self = Some b ->
  t_nom self = Some tn ->
  bounds_are_numbers self ->
  (vm_pu b == u_set self) = true ->
  ∃ net' self' r',
    control_step net self = Ok (net', self') ∧
    net_table net' (trafotable self) !! tid self = Some r' ∧
    col_tap_pos r' = tap_pos self' ∧
    (((tap_pos self' == tap_pos self) = true ∧
      (col_tap_pos r' == col_tap_pos r) = true)
     ↔
     ((col_tap_pos r == tap_pos self) = true ∧
      equilibrium_input self (vm_pu b) tn ∧
      bounds_keep self)).
Proof.
  intros Hrow Hbus Htn Hnum Heq.
  set (moved := moved_tap_pos self (vm_pu b) tn).
  set (new := stepped_tap_pos self (vm_pu b) tn).
  assert (Hnew : new = if check_tap_bounds self
                       then F64.clip moved (tap_min self) (tap_max self)
                       else moved) by reflexivity.
  exists (set_net_table net (trafotable self)
            (at_put_tap_pos (trafotable self)
               (net_table net (trafotable self)) (tid self) new)),
    (set_tap_pos self new), (with_tap_pos r new).
  split; [apply (control_step_ok net self b tn Hbus Htn) |].
  split.
  { rewrite net_table_set_net_table. unfold at_put_tap_pos.
    rewrite lookup_insert_eq, Hrow. reflexivity. }
  split; [reflexivity |].
  cbn [tap_pos set_tap_pos col_tap_pos with_tap_pos].
  (* the step keeps the cached position exactly under the two conditions *)
  assert (Hkeep : (new == tap_pos self) = true ↔
                  equilibrium_input self (vm_pu b) tn ∧ bounds_keep self).
  { split.
    - intros Hsame.
      assert (Hmoved_num : F64.is_nan moved = false).
      { pose proof (eqb_not_nan_l _ _ Hsame) as Hn. rewrite Hnew in Hn.
        destruct (check_tap_bounds self); [| exact Hn].
        destruct (F64.is_nan moved) eqn:Hm; [| reflexivity].
        unfold F64.clip, F64.maximum, F64.minimum in Hn.
        rewrite Hm, Hm in Hn. congruence. }
      pose proof (moved_number_at_equilibrium self _ tn Heq Hmoved_num)
        as Hinput.
      split; [exact Hinput |].
      pose proof (moved_at_equilibrium self _ tn Heq Hinput) as Hmoved.
      fold moved in Hmoved.
      unfold bounds_keep. destruct (check_tap_bounds self) eqn:Hchk;
        [| left; reflexivity].
      right. destruct (Hnum Hchk) as [Hlo Hhi].
      assert (Hfix : (F64.clip moved (tap_min self) (tap_max self) == moved)
                     = true).
      { rewrite Hnew in Hsame.
        apply (eqb_trans _ _ _ Hsame), eqb_sym, Hmoved. }
      apply (clip_keeps moved _ _ Hlo Hhi) in Hfix
        as [[H1 H2] | [Hinv Hat]].
      + left. split.
        * unfold F64.leb, SFleb in *.
          rewrite <- (eqb_compare_r _ _ (tap_min self) Hmoved). exact H1.
        * unfold F64.leb, SFleb in *.
          rewrite <- (eqb_compare_l _ _ (tap_max self) Hmoved). exact H2.
      + right. split; [exact Hinv |].
        apply (eqb_trans _ moved); [apply eqb_sym, Hmoved | exact Hat].
    - intros [Hinput Hbounds].
      pose proof (moved_at_equilibrium self _ tn Heq Hinput) as Hmoved.
      fold moved in Hmoved. rewrite Hnew.
      destruct (check_tap_bounds self) eqn:Hchk; [| exact Hmoved].
      destruct (Hnum Hchk) as [Hlo Hhi].
      apply (eqb_trans _ moved); [| exact Hmoved].
      apply (clip_keeps moved _ _ Hlo Hhi).
      destruct Hbounds as [Hoff | [[H1 H2] | [Hinv Hat]]];
        [congruence | left | right].
      + split.
        * apply (leb_eqb_l _ _ _ Hmoved H1).
        * apply (leb_eqb_r _ _ _ Hmoved H2).
      + split; [exact Hinv |].
        apply (eqb_trans _ _ _ Hmoved Hat). }
  split.
  - intros [Hobj Hcell]. split; [| apply Hkeep, Hobj].
    apply (eqb_trans _ new); [apply eqb_sym, Hcell | exact Hobj].
  - intros (Hsync & Hinput & Hbounds).
    assert (Hobj : (new == tap_pos self) = true)
      by (apply Hkeep; split; assumption).
    split; [exact Hobj |].
    apply (eqb_trans _ _ _ Hobj), eqb_sym, Hsync.
Qed.

(** At tap 3, in the table and on the object, within the bounds -9 and 9,
    the step at the setpoint leaves both where they were. *)
Lemma control_step_equilibrium_witness :
  ∃ net' self' r',
    control_step (Example.net (F64.of_Z 3) one true)
      (Example.controller (F64.of_Z 3) true) = Ok (net', self') ∧
    trafo net' !! 0%Z = Some r' ∧
    (tap_pos self' == F64.of_Z 3) = true ∧
    (col_tap_pos r' == F64.of_Z 3) = true.
Proof.
  destruct (control_step_equilibrium
              (Example.net (F64.of_Z 3) one true)
              (Example.controller (F64.of_Z 3) true)
              (Example.row (F64.of_Z 3) true)
              {| vm_pu := one |} one eq_refl eq_refl eq_refl)
    as (net' & self' & r' & Hstep & Hrow & _ & Hiff).
  - intros _. split; reflexivity.
  - reflexivity.
  - exists net', self', r'. split; [exact Hstep |]. split; [exact Hrow |].
    apply Hiff. split; [reflexivity |]. split.
    + repeat split; reflexivity.
    + right. left. split; reflexivity.
Defined.

(** A table that was changed behind the object: at the setpoint, with the
    table at tap 5 and the object at tap 0, the step writes 0 over the 5. *)
Example control_step_stale_cache :
  ∃ net',
    control_step (Example.net (F64.of_Z 5) one true)
      (Example.controller (F64.of_Z 0) false)
    = Ok (net', Example.controller (F64.of_Z 0) false) ∧
    at_ (trafo (Example.net (F64.of_Z 5) one true)) 0%Z col_tap_pos
    = Ok (F64.of_Z 5) ∧
    at_ (trafo net') 0%Z col_tap_pos = Ok (F64.of_Z 0).
Proof. eexists. repeat split; reflexivity. Qed.


(** Division by zero is not an error: with a zero step size at equilibrium
    the step computes 0/0 and stores a NaN, which no bound contains. *)
Example control_step_zero_step_size :
  let self :=
    {| tid := 0; trafotable := TableTrafo; controlled_bus := 1;
       tap_step_percent := F64.of_Z 0;
       tap_side_coeff := one; tap_sign := one;
       tap_min := F64.of_Z (-9); tap_max := F64.of_Z 9;
       tap_pos := F64.of_Z 3; t_nom := Some one; check_tap_bounds := true;
       u_set := one; trafotype := "2W"; tol := F64.frac 1 1000 |} in
  ∃ net',
    control_step (Example.net (F64.of_Z 3) one true) self
    = Ok (net', set_tap_pos self F64.nan) ∧
    (tap_min self <=? F64.nan) = false.
Proof. eexists. split; reflexivity. Qed.

(** Once [t_nom] is assigned, the element has a row and the controlled bus a
    solved voltage, neither operation raises. *)
Lemma control_step_is_converged_return (net : pandapowerNet)
    (self : ContinuousTapControl) (r : trafo_row) (b : res_bus_row)
    (tn : float) :
  net_table net (trafotable self) !! tid self = Some r ->
  res_bus net !! controlled_bus self = Some b ->
  t_nom self = Some tn ->
  (∃ out, control_step net self = Ok out) ∧
  (∃ out, is_converged net self = Ok out).
Proof.
  intros Hrow Hbus Htn. split.
  - eexists. apply (control_step_ok net self b tn Hbus Htn).
  - destruct (in_service r) eqn:Hin.
    + eexists. apply (is_converged_in_service net self r b Hrow Hin Hbus).
    + exists (true, self). unfold is_converged, at_.
      rewrite Hrow; cbn. rewrite Hin. reflexivity.
Qed.

(** Without an assigned [t_nom] the step stops at line 74. *)
Lemma control_step_unassigned_t_nom (net : pandapowerNet)
    (self : ContinuousTapControl) (b : res_bus_row) :
  res_bus net !! controlled_bus self = Some b ->
  t_nom self = None ->
  control_step net self = Raise AttributeError.
Proof.
  intros Hbus Htn. unfold control_step, at_. rewrite Hbus, Htn. reflexivity.
Qed.

(** C9 (no step raises once construction has succeeded) is not what the code
    does: the three-winding controller with side ["hv"] is constructed, its
    element and its controlled bus are in the tables with a solved voltage,
    and its first control step raises [AttributeError]. *)
Theorem control_step_after_init_raises :
  ∃ self,
    __init__ (Ok (Example3w.base 0)) Example3w.net 0%Z one (F64.frac 1 1000)
      "hv" "3W" true
    = Ok self ∧
    at_ (res_bus Example3w.net) (controlled_bus self) vm_pu
    = Ok (F64.frac 102 100) ∧
    at_ (net_table Example3w.net (trafotable self)) (tid self) in_service
    = Ok true ∧
    control_step Example3w.net self = Raise AttributeError.
Proof.
  eexists. split; [reflexivity |]. repeat split; reflexivity.
Qed.

(** ** The convergence test *)

(** C6: when the controlled element is out of service in its table,
    [is_converged] answers true at once: whatever the solved voltages (even
    with no voltage for the controlled bus at all), the tap positions and the
    tolerance, and without refreshing the cached tap position. *)
Theorem is_converged_out_of_service (net : pandapowerNet)
    (self : ContinuousTapControl) (r : trafo_row) :
  net_table net (trafotable self) !! tid self = Some r →
  in_service r = false →
  is_converged net self = Ok (true, self).
Proof.
  intros Hrow Hout. unfold is_converged, at_.
  rewrite Hrow; cbn. rewrite Hout. reflexivity.
Qed.

Lemma is_converged_out_of_service_witness :
  let net := Example.net F64.nan (F64.frac 5 10) false in
  let self := Example.controller (F64.of_Z 3) true in
  is_converged net self = Ok (true, self).
Proof.
  apply (is_converged_out_of_service _ _ (Example.row F64.nan false));
    reflexivity.
Defined.

(** C1: for an element in service and a controller that checks the tap
    bounds, [is_converged] answers true in each of the four saturation cases
    of the specification, whatever the relative deviation is; and when it
    answers true outside the tolerance band, one of the four cases holds. *)
Theorem is_converged_saturation (net : pandapowerNet)
    (self : ContinuousTapControl) (r : trafo_row) (b : res_bus_row) :
  net_table net (trafotable self) !! tid self = Some r →
  in_service r = true →
  res_bus net !! controlled_bus self = Some b →
  check_tap_bounds self = true →
  let u := vm_pu b in
  let tp := col_tap_pos r in
  let cs := tap_side_coeff self * tap_sign self in
  let yes := Ok (true, set_tap_pos self tp) in
  ((cs == one) = true → (u <? u_set self) = true →
     (tp == tap_min self) = true → is_converged net self = yes) ∧
  ((cs == one) = true → (u_set self <? u) = true →
     (tp == tap_max self) = true → is_converged net self = yes) ∧
  ((cs == minus_one) = true → (u_set self <? u) = true →
     (tp == tap_min self) = true → is_converged net self = yes) ∧
  ((cs == minus_one) = true → (u <? u_set self) = true →
     (tp == tap_max self) = true → is_converged net self = yes) ∧
  (is_converged net self = yes → within_tolerance self u = false →
     saturated self u tp).
Proof.
  intros Hrow Hin Hbus Hchk u tp cs yes.
  pose proof (is_converged_in_service net self r b Hrow Hin Hbus) as Heq.
  rewrite Hchk in Heq; cbn [andb] in Heq.
  pose proof (at_tap_limit_set_tap_pos self u tp) as Hsat.
  fold u tp in Heq.
  assert (Hyes : saturated self u tp → is_converged net self = yes).
  { intros Hs. apply Hsat in Hs. rewrite Heq, Hs. reflexivity. }
  repeat split.
  - intros; apply Hyes; left; auto.
  - intros; apply Hyes; left; auto.
  - intros; apply Hyes; right; auto.
  - intros; apply Hyes; right; auto.
  - intros Hret Htol. rewrite Heq, Htol, orb_false_r in Hret.
    apply Hsat. unfold yes in Hret. congruence.
Qed.

(** At the minimum tap with the voltage at 0.95 under a setpoint of 1.0, the
    relative deviation is 50 times the tolerance and the answer is true. *)
Lemma is_converged_saturation_witness :
  let u := F64.frac 95 100 in
  let tp := F64.of_Z (-9) in
  let net := Example.net tp u true in
  let self := Example.controller (F64.of_Z 0) true in
  within_tolerance self u = false ∧
  is_converged net self = Ok (true, set_tap_pos self tp).
Proof.
  split; [reflexivity |].
  refine (proj1 (is_converged_saturation
           (Example.net (F64.of_Z (-9)) (F64.frac 95 100) true)
           (Example.controller (F64.of_Z 0) true)
           (Example.row (F64.of_Z (-9)) true)
           {| vm_pu := F64.frac 95 100 |}
           eq_refl eq_refl eq_refl eq_refl) eq_refl eq_refl eq_refl).
Defined.

(** C3: for an element in service, when the controller does not check the
    tap bounds or is not saturated, [is_converged] answers exactly
    [|1 - u_set / u| < tol], with no conversion of the tolerance; with
    setpoint 1.0 and tolerance 0.001 that is true at 1.0009 and false at
    1.0012. *)
Theorem is_converged_tolerance (net : pandapowerNet)
    (self : ContinuousTapControl) (r : trafo_row) (b : res_bus_row) :
  net_table net (trafotable self) !! tid self = Some r →
  in_service r = true →
  res_bus net !! controlled_bus self = Some b →
  check_tap_bounds self = false ∨ ¬ saturated self (vm_pu b) (col_tap_pos r) →
  let u := vm_pu b in
  let self' := set_tap_pos self (col_tap_pos r) in
  is_converged net self = Ok (F64.abs (one - u_set self / u) <? tol self, self')
  ∧ (u_set self = one → tol self = F64.frac 1 1000 →
       (u = F64.frac 10009 10000 → is_converged net self = Ok (true, self')) ∧
       (u = F64.frac 10012 10000 → is_converged net self = Ok (false, self'))).
Proof.
  intros Hrow Hin Hbus Hfree u self'.
  pose proof (is_converged_in_service net self r b Hrow Hin Hbus) as Heq.
  fold u self' in Heq.
  assert (Hno : check_tap_bounds self && at_tap_limit self' u = false).
  { destruct Hfree as [-> | Hns]; [reflexivity |].
    apply andb_false_iff; right. apply not_true_is_false.
    intros Hlim. apply Hns, at_tap_limit_set_tap_pos, Hlim. }
  rewrite Hno in Heq; cbn [orb] in Heq. unfold within_tolerance in Heq.
  split; [exact Heq |].
  intros Hset Htol; rewrite Heq, Hset, Htol.
  split; intros ->; reflexivity.
Qed.

Lemma is_converged_tolerance_witness :
  let net := Example.net (F64.of_Z 2) (F64.frac 10009 10000) true in
  let self := Example.controller (F64.of_Z 0) false in
  is_converged net self = Ok (true, set_tap_pos self (F64.of_Z 2)).
Proof.
  refine (proj1 (proj2 (is_converged_tolerance
           (Example.net (F64.of_Z 2) (F64.frac 10009 10000) true)
           (Example.controller (F64.of_Z 0) false)
           (Example.row (F64.of_Z 2) true)
           {| vm_pu := F64.frac 10009 10000 |}
           eq_refl eq_refl eq_refl (or_introl eq_refl)) eq_refl eq_refl)
         eq_refl).
Defined.



(** ** A step against the bounds *)

(** With the bounds enforced and in order, a step whose moved position is at
    or beyond a bound lands on that bound. *)
Theorem control_step_lands_on_bound (net : pandapowerNet)
    (self : ContinuousTapControl) (b : res_bus_row) (tn : float) :
  res_bus net !! controlled_bus self = Some b ->
  t_nom self = Some tn ->
  check_tap_bounds self = true ->
  (tap_min self <=? tap_max self) = true ->
  ∃ net' self',
    control_step net self = Ok (net', self') ∧
    ((tap_max self <=? moved_tap_pos self (vm_pu b) tn) = true ->
       tap_pos self' = tap_max self) ∧
    ((moved_tap_pos self (vm_pu b) tn <=? tap_min self) = true ->
       (tap_pos self' == tap_min self) = true).
Proof.
  intros Hbus Htn Hchk Hle.
  eexists _, _. split; [apply (control_step_ok net self b tn Hbus Htn) |].
  cbn [tap_pos set_tap_pos]. unfold stepped_tap_pos. rewrite Hchk.
  change (tap_pos self + _ * tap_side_coeff self * tap_sign self)
    with (moved_tap_pos self (vm_pu b) tn).
  split; intros Hm.
  - apply clip_at_max; assumption.
  - apply clip_at_min; assumption.
Qed.

Lemma control_step_lands_on_bound_witness :
  ∃ net' self',
    control_step (Example.net (F64.frac 85 10) (F64.frac 130 100) true)
      (Example.controller (F64.frac 85 10) true) = Ok (net', self') ∧
    tap_pos self' = F64.of_Z 9.
Proof.
  destruct (control_step_lands_on_bound
              (Example.net (F64.frac 85 10) (F64.frac 130 100) true)
              (Example.controller (F64.frac 85 10) true)
              {| vm_pu := F64.frac 130 100 |} one
              eq_refl eq_refl eq_refl eq_refl)
    as (net' & self' & Hstep & Hmax & _).
  exists net', self'. split; [exact Hstep | apply Hmax; reflexivity].
Defined.

(** With the bounds the wrong way round ([tap_max < tap_min]) and enforced,
    every step that computes a number sets the tap position to [tap_max]. *)
Theorem control_step_inverted_bounds (net : pandapowerNet)
    (self : ContinuousTapControl) (b : res_bus_row) (tn : float) :
  res_bus net !! controlled_bus self = Some b ->
  t_nom self = Some tn ->
  check_tap_bounds self = true ->
  (tap_max self <? tap_min self) = true ->
  F64.is_nan (moved_tap_pos self (vm_pu b) tn) = false ->
  ∃ net',
    control_step net self = Ok (net', set_tap_pos self (tap_max self)) ∧
    at_ (net_table net' (trafotable self)) (tid self) col_tap_pos
    = Ok (tap_max self).
Proof.
  intros Hbus Htn Hchk Hinv Hnum.
  assert (Hnew : stepped_tap_pos self (vm_pu b) tn = tap_max self).
  { unfold stepped_tap_pos. rewrite Hchk.
    change (tap_pos self + _ * tap_side_coeff self * tap_sign self)
      with (moved_tap_pos self (vm_pu b) tn).
    apply clip_inverted; assumption. }
  eexists. rewrite (control_step_ok net self b tn Hbus Htn), Hnew.
  split; [reflexivity |].
  rewrite net_table_set_net_table. apply at_put_tap_pos_read.
Qed.

Lemma control_step_inverted_bounds_witness :
  ∃ net',
    control_step (Example.net (F64.of_Z 0) (F64.frac 98 100) true)
      {| tid := 0; trafotable := TableTrafo; controlled_bus := 1;
         tap_step_percent := F64.frac 15 10;
         tap_side_coeff := one; tap_sign := one;
         tap_min := F64.of_Z 9; tap_max := F64.of_Z (-9);
         tap_pos := F64.of_Z 0; t_nom := Some one; check_tap_bounds := true;
         u_set := one; trafotype := "2W"; tol := F64.frac 1 1000 |}
    = Ok (net',
          {| tid := 0; trafotable := TableTrafo; controlled_bus := 1;
             tap_step_percent := F64.frac 15 10;
             tap_side_coeff := one; tap_sign := one;
             tap_min := F64.of_Z 9; tap_max := F64.of_Z (-9);
             tap_pos := F64.of_Z (-9); t_nom := Some one;
             check_tap_bounds := true;
             u_set := one; trafotype := "2W"; tol := F64.frac 1 1000 |}).
Proof.
  destruct (control_step_inverted_bounds
              (Example.net (F64.of_Z 0) (F64.frac 98 100) true)
              {| tid := 0; trafotable := TableTrafo; controlled_bus := 1;
                 tap_step_percent := F64.frac 15 10;
                 tap_side_coeff := one; tap_sign := one;
                 tap_min := F64.of_Z 9; tap_max := F64.of_Z (-9);
                 tap_pos := F64.of_Z 0; t_nom := Some one;
                 check_tap_bounds := true;
                 u_set := one; trafotype := "2W"; tol := F64.frac 1 1000 |}
              {| vm_pu := F64.frac 98 100 |} one
              eq_refl eq_refl eq_refl eq_refl eq_refl)
    as (net' & Hstep & _).
  exists net'. exact Hstep.
Defined.

(** ** A step followed by the convergence test *)

Lemma res_bus_set_net_table (net : pandapowerNet) (name : trafotable_name)
    (t : gmap Z trafo_row) :
  res_bus (set_net_table net name t) = res_bus net.
Proof. destruct name; reflexivity. Qed.

Lemma stepped_row (net : pandapowerNet) (name : trafotable_name) (label : Z)
    (v : float) (r : trafo_row) :
  net_table net name !! label = Some r ->
  net_table
    (set_net_table net name (at_put_tap_pos name (net_table net name) label v))
    name !! label
  = Some (with_tap_pos r v).
Proof.
  intros Hrow. rewrite net_table_set_net_table. unfold at_put_tap_pos.
  rewrite lookup_insert_eq, Hrow. reflexivity.
Qed.

(** After a step, the convergence test on the network the step left reads
    back the tap position the step wrote: it answers without changing the
    object again. *)
Theorem is_converged_after_control_step (net : pandapowerNet)
    (self : ContinuousTapControl) (r : trafo_row) (b : res_bus_row)
    (tn : float) :
  net_table net (trafotable self) !! tid self = Some r ->
  res_bus net !! controlled_bus self = Some b ->
  t_nom self = Some tn ->
  ∃ net' self' answer,
    control_step net self = Ok (net', self') ∧
    is_converged net' self' = Ok (answer, self').
Proof.
  intros Hrow Hbus Htn.
  rewrite (control_step_ok net self b tn Hbus Htn).
  set (new := stepped_tap_pos self (vm_pu b) tn).
  set (net' := set_net_table _ _ _).
  assert (Hrow' : net_table net' (trafotable (set_tap_pos self new))
                    !! tid (set_tap_pos self new)
                  = Some (with_tap_pos r new)).
  { apply stepped_row, Hrow. }
  assert (Hbus' : res_bus net' !! controlled_bus (set_tap_pos self new)
                  = Some b).
  { unfold net'. rewrite res_bus_set_net_table. exact Hbus. }
  destruct (in_service r) eqn:Hin.
  - eexists _, _, _. split; [reflexivity |].
    rewrite (is_converged_in_service net' _ _ b Hrow' Hin Hbus').
    reflexivity.
  - exists net', (set_tap_pos self new), true. split; [reflexivity |].
    unfold is_converged, at_. rewrite Hrow'. cbn. rewrite Hin. reflexivity.
Qed.

Lemma is_converged_after_control_step_witness :
  ∃ net' self' answer,
    control_step (Example.net (F64.of_Z 0) (F64.frac 98 100) true)
      (Example.controller (F64.of_Z 0) true) = Ok (net', self') ∧
    is_converged net' self' = Ok (answer, self').
Proof.
  exact (is_converged_after_control_step
           (Example.net (F64.of_Z 0) (F64.frac 98 100) true)
           (Example.controller (F64.of_Z 0) true)
           (Example.row (F64.of_Z 0) true)
           {| vm_pu := F64.frac 98 100 |} one eq_refl eq_refl eq_refl).
Defined.

Lemma is_converged_out_of_service_eq (net : pandapowerNet)
    (self : ContinuousTapControl) (r : trafo_row) :
  net_table net (trafotable self) !! tid self = Some r ->
  in_service r = false ->
  is_converged net self = Ok (true, self).
Proof.
  intros Hrow Hout. unfold is_converged, at_.
  rewrite Hrow; cbn. rewrite Hout. reflexivity.
Qed.

(** A step that is stopped by a bound is followed by a true convergence test
    on the same solved voltages, in each of the four directions: the position
    the step writes is the one the saturation test looks for. *)
Theorem control_step_then_saturated (net : pandapowerNet)
    (self : ContinuousTapControl) (r : trafo_row) (b : res_bus_row)
    (tn : float) :
  net_table net (trafotable self) !! tid self = Some r ->
  res_bus net !! controlled_bus self = Some b ->
  t_nom self = Some tn ->
  check_tap_bounds self = true ->
  (tap_min self <=? tap_max self) = true ->
  let u := vm_pu b in
  let cs := tap_side_coeff self * tap_sign self in
  let moved := moved_tap_pos self u tn in
  ((tap_max self <=? moved) = true ∧
     (((cs == one) = true ∧ (u_set self <? u) = true) ∨
      ((cs == minus_one) = true ∧ (u <? u_set self) = true)))
  ∨
  ((moved <=? tap_min self) = true ∧
     (((cs == one) = true ∧ (u <? u_set self) = true) ∨
      ((cs == minus_one) = true ∧ (u_set self <? u) = true))) ->
  ∃ net' self',
    control_step net self = Ok (net', self') ∧
    is_converged net' self' = Ok (true, self').
Proof.
  intros Hrow Hbus Htn Hchk Hle u cs moved Hdir.
  rewrite (control_step_ok net self b tn Hbus Htn).
  set (new := stepped_tap_pos self (vm_pu b) tn).
  set (net' := set_net_table _ _ _).
  exists net', (set_tap_pos self new). split; [reflexivity |].
  assert (Hrow' : net_table net' (trafotable (set_tap_pos self new))
                    !! tid (set_tap_pos self new)
                  = Some (with_tap_pos r new)).
  { apply stepped_row, Hrow. }
  assert (Hbus' : res_bus net' !! controlled_bus (set_tap_pos self new)
                  = Some b).
  { unfold net'. rewrite res_bus_set_net_table. exact Hbus. }
  destruct (in_service r) eqn:Hin.
  2:{ unfold is_converged, at_. rewrite Hrow'. cbn. rewrite Hin.
      reflexivity. }
  rewrite (is_converged_in_service net' _ _ b Hrow' Hin Hbus').
  cbn [check_tap_bounds set_tap_pos col_tap_pos with_tap_pos].
  rewrite Hchk. cbn [andb].
  assert (Hnew : new = F64.clip moved (tap_min self) (tap_max self)).
  { unfold new, stepped_tap_pos. rewrite Hchk. reflexivity. }
  assert (Hsat : saturated (set_tap_pos self new) u new).
  { unfold saturated. cbn [tap_side_coeff tap_sign u_set tap_min tap_max
                            set_tap_pos]. fold cs.
    destruct Hdir as [[Hmax Hd] | [Hmin Hd]].
    - assert (Htp : (new == tap_max self) = true).
      { rewrite Hnew, (clip_at_max _ _ _ Hle Hmax).
        apply eqb_refl. apply (leb_not_nan _ _ Hle). }
      destruct Hd as [[Hc Hu] | [Hc Hu]]; [left | right]; auto.
    - assert (Htp : (new == tap_min self) = true).
      { rewrite Hnew. apply clip_at_min; assumption. }
      destruct Hd as [[Hc Hu] | [Hc Hu]]; [left | right]; auto. }
  apply at_tap_limit_set_tap_pos in Hsat.
  fold u. rewrite Hsat. reflexivity.
Qed.

(** From tap 8.5 with 1.30 measured against a setpoint of 1.0 the step stops
    at tap 9 and the test answers true, 30 percent away from the setpoint. *)
Lemma control_step_then_saturated_witness :
  ∃ net' self',
    control_step (Example.net (F64.frac 85 10) (F64.frac 130 100) true)
      (Example.controller (F64.frac 85 10) true) = Ok (net', self') ∧
    is_converged net' self' = Ok (true, self').
Proof.
  apply (control_step_then_saturated
           (Example.net (F64.frac 85 10) (F64.frac 130 100) true)
           (Example.controller (F64.frac 85 10) true)
           (Example.row (F64.frac 85 10) true)
           {| vm_pu := F64.frac 130 100 |} one
           eq_refl eq_refl eq_refl eq_refl eq_refl).
  left. split; [reflexivity |]. left. split; reflexivity.
Defined.

(** The convergence test can be repeated: on the same network a second call
    gives the same answer and leaves the object as the first call left it. *)
Theorem is_converged_idempotent (net : pandapowerNet)
    (self self' : ContinuousTapControl) (answer : bool) :
  is_converged net self = Ok (answer, self') ->
  is_converged net self' = Ok (answer, self').
Proof.
  intros Hfirst.
  destruct (net_table net (trafotable self) !! tid self) as [r |] eqn:Hrow.
  2:{ unfold is_converged, at_ in Hfirst. rewrite Hrow in Hfirst.
      discriminate. }
  destruct (in_service r) eqn:Hin.
  - destruct (res_bus net !! controlled_bus self) as [b |] eqn:Hbus.
    2:{ unfold is_converged, at_ in Hfirst.
        rewrite Hrow in Hfirst; cbn in Hfirst.
        rewrite Hin in Hfirst; cbn in Hfirst.
        rewrite Hbus in Hfirst. discriminate. }
    rewrite (is_converged_in_service net self r b Hrow Hin Hbus) in Hfirst.
    injection Hfirst as Hans Hself. subst self'.
    rewrite (is_converged_in_service net
               (set_tap_pos self (col_tap_pos r)) r b Hrow Hin Hbus).
    rewrite <- Hans. reflexivity.
  - rewrite (is_converged_out_of_service_eq net self r Hrow Hin) in Hfirst.
    injection Hfirst as Hans Hself. subst self' answer.
    apply (is_converged_out_of_service_eq net self r Hrow Hin).
Qed.

Lemma is_converged_idempotent_witness :
  is_converged (Example.net (F64.of_Z 2) (F64.frac 10009 10000) true)
    (set_tap_pos (Example.controller (F64.of_Z 0) true) (F64.of_Z 2))
  = Ok (true, set_tap_pos (Example.controller (F64.of_Z 0) true) (F64.of_Z 2)).
Proof.
  apply (is_converged_idempotent
           (Example.net (F64.of_Z 2) (F64.frac 10009 10000) true)
           (Example.controller (F64.of_Z 0) true)).
  reflexivity.
Defined.

(** ** Voltages that are not numbers, and zero voltages *)

Section NotANumber.
Implicit Types x y : float.

Lemma ltb_nan_l x : (F64.nan <? x) = false.
Proof. reflexivity. Qed.

Lemma ltb_nan_r x : (x <? F64.nan) = false.
Proof. destruct x; reflexivity. Qed.

Lemma sub_nan_r x : x - F64.nan = F64.nan.
Proof. destruct x; reflexivity. Qed.

Lemma add_nan_r x : x + F64.nan = F64.nan.
Proof. destruct x; reflexivity. Qed.

Lemma div_nan_r x : x / F64.nan = F64.nan.
Proof. destruct x; reflexivity. Qed.

Lemma clip_nan lo hi : F64.clip F64.nan lo hi = F64.nan.
Proof. reflexivity. Qed.

Lemma is_nan_eq x : F64.is_nan x = true -> x = F64.nan.
Proof. destruct x; try discriminate; reflexivity. Qed.
End NotANumber.

(** A voltage that is not a number (pandapower's result for a bus without
    supply) is never converged for an element in service: no saturation test
    and no tolerance holds. *)
Theorem is_converged_nan_voltage (net : pandapowerNet)
    (self : ContinuousTapControl) (r : trafo_row) (b : res_bus_row) :
  net_table net (trafotable self) !! tid self = Some r ->
  in_service r = true ->
  res_bus net !! controlled_bus self = Some b ->
  F64.is_nan (vm_pu b) = true ->
  is_converged net self = Ok (false, set_tap_pos self (col_tap_pos r)).
Proof.
  intros Hrow Hin Hbus Hnan.
  rewrite (is_converged_in_service net self r b Hrow Hin Hbus).
  rewrite (is_nan_eq _ Hnan).
  unfold at_tap_limit, within_tolerance.
  rewrite !ltb_nan_l, !ltb_nan_r, div_nan_r, sub_nan_r. cbn [andb F64.abs].
  change (SFabs F64.nan) with F64.nan. rewrite ltb_nan_l.
  destruct (check_tap_bounds self); cbn [andb orb];
    [| reflexivity].
  repeat match goal with |- context [if ?c then _ else _] => destruct c end;
    reflexivity.
Qed.

Lemma is_converged_nan_voltage_witness :
  is_converged (Example.net (F64.of_Z (-9)) F64.nan true)
    (Example.controller (F64.of_Z (-9)) true)
  = Ok (false, Example.controller (F64.of_Z (-9)) true).
Proof.
  exact (is_converged_nan_voltage
           (Example.net (F64.of_Z (-9)) F64.nan true)
           (Example.controller (F64.of_Z (-9)) true)
           (Example.row (F64.of_Z (-9)) true) {| vm_pu := F64.nan |}
           eq_refl eq_refl eq_refl eq_refl).
Defined.

(** A step on a voltage that is not a number stores a NaN tap position, on
    the object and in the table, whether the bounds are enforced or not. *)
Theorem control_step_nan_voltage (net : pandapowerNet)
    (self : ContinuousTapControl) (b : res_bus_row) (tn : float) :
  res_bus net !! controlled_bus self = Some b ->
  t_nom self = Some tn ->
  F64.is_nan (vm_pu b) = true ->
  ∃ net',
    control_step net self = Ok (net', set_tap_pos self F64.nan) ∧
    at_ (net_table net' (trafotable self)) (tid self) col_tap_pos
    = Ok F64.nan.
Proof.
  intros Hbus Htn Hnan.
  assert (Hnew : stepped_tap_pos self (vm_pu b) tn = F64.nan).
  { unfold stepped_tap_pos. rewrite (is_nan_eq _ Hnan).
    change (F64.nan - u_set self) with F64.nan.
    change (F64.nan / tap_step_percent self * hundred / tn
            * tap_side_coeff self * tap_sign self) with F64.nan.
    rewrite add_nan_r, clip_nan.
    destruct (check_tap_bounds self); reflexivity. }
  eexists. rewrite (control_step_ok net self b tn Hbus Htn), Hnew.
  split; [reflexivity |].
  rewrite net_table_set_net_table. apply at_put_tap_pos_read.
Qed.

Lemma control_step_nan_voltage_witness :
  ∃ net',
    control_step (Example.net (F64.of_Z 3) F64.nan true)
      (Example.controller (F64.of_Z 3) true)
    = Ok (net', Example.controller F64.nan true) ∧
    at_ (trafo net') 0%Z col_tap_pos = Ok F64.nan.
Proof.
  exact (control_step_nan_voltage
           (Example.net (F64.of_Z 3) F64.nan true)
           (Example.controller (F64.of_Z 3) true)
           {| vm_pu := F64.nan |} one eq_refl eq_refl eq_refl).
Defined.

(** A zero voltage makes [u_set / u] infinite for a setpoint that is a
    non-zero number; no division error is raised, the deviation is outside
    every tolerance, and the test answers true only by saturation. *)
Theorem is_converged_zero_voltage (net : pandapowerNet)
    (self : ContinuousTapControl) (r : trafo_row) (b : res_bus_row) :
  net_table net (trafotable self) !! tid self = Some r ->
  in_service r = true ->
  res_bus net !! controlled_bus self = Some b ->
  F64.is_zero (vm_pu b) = true ->
  F64.is_finite (u_set self) = true ->
  F64.is_zero (u_set self) = false ->
  within_tolerance self (vm_pu b) = false ∧
  is_converged net self =
    Ok (check_tap_bounds self &&
          at_tap_limit (set_tap_pos self (col_tap_pos r)) (vm_pu b),
        set_tap_pos self (col_tap_pos r)).
Proof.
  intros Hrow Hin Hbus Hzero Hfin Hnz.
  assert (Htol : within_tolerance self (vm_pu b) = false).
  { unfold within_tolerance.
    destruct (vm_pu b) as [su | | |]; try discriminate.
    destruct (u_set self) as [| | | ss ms es]; try discriminate.
    destruct (tol self) as [st | st | | st mt et]; try reflexivity;
      destruct ss, su; try reflexivity; destruct st; reflexivity. }
  split; [exact Htol |].
  rewrite (is_converged_in_service net self r b Hrow Hin Hbus), Htol.
  rewrite orb_false_r. reflexivity.
Qed.

Lemma is_converged_zero_voltage_witness :
  is_converged (Example.net (F64.of_Z 2) (F64.of_Z 0) true)
    (Example.controller (F64.of_Z 0) true)
  = Ok (false, set_tap_pos (Example.controller (F64.of_Z 0) true)
                 (F64.of_Z 2)).
Proof.
  exact (proj2 (is_converged_zero_voltage
                  (Example.net (F64.of_Z 2) (F64.of_Z 0) true)
                  (Example.controller (F64.of_Z 0) true)
                  (Example.row (F64.of_Z 2) true) {| vm_pu := F64.of_Z 0 |}
                  eq_refl eq_refl eq_refl eq_refl eq_refl eq_refl)).
Defined.

(** ** What the operations read, and when they raise *)

(** A step reads nothing of the network but the solved voltage of the
    controlled bus: the table's own [tap_pos] and [in_service] cells play no
    part, so an element out of service is stepped like any other, from the
    tap position cached on the object. *)
Theorem control_step_reads_only_voltage (net1 net2 : pandapowerNet)
    (self : ContinuousTapControl) :
  res_bus net1 !! controlled_bus self = res_bus net2 !! controlled_bus self ->
  snd <$> control_step net1 self = snd <$> control_step net2 self.
Proof.
  intros Hsame. unfold control_step, at_. rewrite Hsame.
  destruct (res_bus net2 !! controlled_bus self) as [b |]; [| reflexivity].
  destruct (t_nom self) as [tn |]; reflexivity.
Qed.

(** In service at tap 0 in the table, or out of service at tap 5 in the
    table: the step from the cached tap 0 is the same. *)
Lemma control_step_reads_only_voltage_witness :
  snd <$> control_step (Example.net (F64.of_Z 0) (F64.frac 98 100) true)
            (Example.controller (F64.of_Z 0) true)
  = snd <$> control_step (Example.net (F64.of_Z 5) (F64.frac 98 100) false)
              (Example.controller (F64.of_Z 0) true).
Proof.
  exact (control_step_reads_only_voltage
           (Example.net (F64.of_Z 0) (F64.frac 98 100) true)
           (Example.net (F64.of_Z 5) (F64.frac 98 100) false)
           (Example.controller (F64.of_Z 0) true) eq_refl).
Defined.

(** The outcomes of a step: [KeyError] exactly when the controlled bus has no
    solved voltage (whether or not [t_nom] is assigned), [AttributeError]
    exactly when it has one and [t_nom] was never assigned, a result in every
    other case. *)
Theorem control_step_outcomes (net : pandapowerNet)
    (self : ContinuousTapControl) :
  (control_step net self = Raise KeyError ↔
     res_bus net !! controlled_bus self = None) ∧
  (control_step net self = Raise AttributeError ↔
     is_Some (res_bus net !! controlled_bus self) ∧ t_nom self = None) ∧
  ((∃ out, control_step net self = Ok out) ↔
     is_Some (res_bus net !! controlled_bus self) ∧ is_Some (t_nom self)).
Proof.
  unfold control_step, at_.
  destruct (res_bus net !! controlled_bus self) as [b |];
    destruct (t_nom self) as [tn |]; cbn;
    repeat split;
    try discriminate; try reflexivity; eauto;
    repeat match goal with
           | |- _ -> _ => intros ?
           | H : _ ∧ _ |- _ => destruct H
           | H : ∃ _, _ |- _ => destruct H
           | H : is_Some None |- _ => destruct H
           end;
    try discriminate; eauto.
Qed.

(** The outcomes of the convergence test: it raises [KeyError] exactly when
    the element has no row, or is in service while the controlled bus has no
    solved voltage; it raises nothing else, even on an object whose [t_nom]
    was never assigned. *)
Theorem is_converged_outcomes (net : pandapowerNet)
    (self : ContinuousTapControl) :
  (is_converged net self = Raise KeyError ↔
     net_table net (trafotable self) !! tid self = None ∨
     (∃ r, net_table net (trafotable self) !! tid self = Some r ∧
           in_service r = true ∧
           res_bus net !! controlled_bus self = None)) ∧
  (∀ e, is_converged net self = Raise e -> e = KeyError).
Proof.
  destruct (net_table net (trafotable self) !! tid self) as [r |] eqn:Hrow.
  2:{ unfold is_converged, at_. rewrite Hrow. cbn.
      split; [split; auto | intros e He; congruence]. }
  destruct (in_service r) eqn:Hin.
  - destruct (res_bus net !! controlled_bus self) as [b |] eqn:Hbus.
    + rewrite (is_converged_in_service net self r b Hrow Hin Hbus).
      split; [split | intros e He; discriminate].
      * discriminate.
      * intros [Hnone | (r' & _ & _ & Hb)]; discriminate.
    + unfold is_converged, at_. rewrite Hrow. cbn. rewrite Hin. cbn.
      rewrite Hbus. cbn.
      split; [split; eauto | intros e He; congruence].
  - rewrite (is_converged_out_of_service_eq net self r Hrow Hin).
    split; [split | intros e He; discriminate].
    + discriminate.
    + intros [Hnone | (r' & Hr' & Hin' & _)]; [discriminate |].
      congruence.
Qed.

(** ** What the constructor leaves, and when it raises *)

Lemma init_inv (base : TrafoController) (net : pandapowerNet) (tid_arg : Z)
    (u_set_arg tol_arg : float) (side trafotype_arg : string) (chk : bool)
    (self : ContinuousTapControl) :
  __init__ (Ok base) net tid_arg u_set_arg tol_arg side trafotype_arg chk
  = Ok self ->
  init_t_nom net (net_table net (base_trafotable base)) tid_arg side
    trafotype_arg = Ok (t_nom self) ∧
  tid self = base_tid base ∧
  trafotable self = base_trafotable base ∧
  controlled_bus self = base_controlled_bus base.
Proof.
  unfold __init__, mbind, result_bind.
  destruct (init_t_nom _ _ _ _ _) as [tn | e]; [| discriminate].
  intros Hself. injection Hself as <-. auto.
Qed.

Lemma nominal_ratio_inv (net : pandapowerNet) (t : gmap Z trafo_row)
    (tid : Z) (vn_far : result float) (near_bus : trafo_row -> option Z)
    (out : result float) :
  nominal_ratio net t tid vn_far near_bus = out ->
  (∀ e, vn_far = Raise e -> e = KeyError) ->
  match out with
  | Ok _ => is_Some (t !! tid)
  | Raise e => e = KeyError
  end.
Proof.
  intros <- Hfar. unfold nominal_ratio, bus_vn_kv, at_, present.
  destruct vn_far as [far | e]; cbn; [| apply (Hfar e eq_refl)].
  destruct (t !! tid) as [r |]; cbn; [| reflexivity].
  destruct (hv_bus r) as [ih |]; cbn; [| reflexivity].
  destruct (bus net !! ih); cbn; [| reflexivity].
  destruct (near_bus r) as [inear |]; cbn; [| reflexivity].
  destruct (bus net !! inear); cbn; [eauto | reflexivity].
Qed.

Lemma at_raises_key_error {R A} (t : gmap Z R) (label : Z) (column : R -> A)
    (e : exn) :
  at_ t label column = Raise e -> e = KeyError.
Proof. unfold at_. destruct (t !! label); congruence. Qed.

Lemma at_present_raises_key_error {R A} (t : gmap Z R) (label : Z)
    (column : R -> option A) (e : exn) :
  at_ t label column ≫= present = Raise e -> e = KeyError.
Proof.
  unfold at_, present. destruct (t !! label) as [r |]; cbn; [| congruence].
  destruct (column r); cbn; congruence.
Qed.

(** The three branches, and what is left without one. *)
Lemma init_t_nom_inv (net : pandapowerNet) (t : gmap Z trafo_row) (tid : Z)
    (side trafotype : string) :
  match init_t_nom net t tid side trafotype with
  | Ok (Some _) => is_Some (t !! tid) ∧ branch_taken side trafotype
  | Ok None => ¬ branch_taken side trafotype
  | Raise e => e = KeyError ∧ branch_taken side trafotype
  end.
Proof.
  unfold init_t_nom, branch_taken.
  repeat case_decide;
    try (cbn; tauto);
    match goal with
    | |- context [nominal_ratio ?n ?t ?i ?far ?near] =>
        pose proof (nominal_ratio_inv n t i far near _ eq_refl) as Hinv;
        destruct (nominal_ratio n t i far near) as [v | e]; cbn;
        (split; [| tauto]); apply Hinv; intros e';
        first [apply at_raises_key_error | apply at_present_raises_key_error]
    end.
Qed.

(** A constructed controller has its [t_nom] assigned exactly when one of the
    three branches was taken: trafotype ["2W"], or side ["lv"] or ["mv"]. *)
Theorem init_assigns_t_nom (base : TrafoController) (net : pandapowerNet)
    (tid_arg : Z) (u_set_arg tol_arg : float) (side trafotype_arg : string)
    (chk : bool) (self : ContinuousTapControl) :
  __init__ (Ok base) net tid_arg u_set_arg tol_arg side trafotype_arg chk
  = Ok self ->
  is_Some (t_nom self) ↔ branch_taken side trafotype_arg.
Proof.
  intros Hinit. apply init_inv in Hinit as (Htn & _).
  pose proof (init_t_nom_inv net (net_table net (base_trafotable base))
                tid_arg side trafotype_arg) as Hinv.
  rewrite Htn in Hinv. destruct (t_nom self) as [tn |].
  - split; [tauto | eauto].
  - split; [intros [? ?]; discriminate | tauto].
Qed.

Lemma init_assigns_t_nom_witness :
  is_Some (t_nom (Example.controller (F64.of_Z 0) true)) ↔
  branch_taken "lv" "2W".
Proof.
  exact (init_assigns_t_nom (Example.base (F64.of_Z 0))
           (Example.net (F64.of_Z 0) one true) 0%Z one (F64.frac 1 1000)
           "lv" "2W" true (Example.controller (F64.of_Z 0) true) eq_refl).
Defined.

(** Once the base constructor has returned, the lookups of lines 47-58 raise
    nothing but [KeyError], and only when one of the three branches is taken;
    for any other topology/side pair none of these lookups runs and the
    constructor returns, unknown transformer id or not.  (The coercion of
    lines 63-66 is the identity on the cells of the model.) *)
Theorem init_raises_only_key_error (base : TrafoController)
    (net : pandapowerNet) (tid_arg : Z) (u_set_arg tol_arg : float)
    (side trafotype_arg : string) (chk : bool) :
  (∀ e,
     __init__ (Ok base) net tid_arg u_set_arg tol_arg side trafotype_arg chk
     = Raise e ->
     e = KeyError ∧ branch_taken side trafotype_arg) ∧
  (¬ branch_taken side trafotype_arg ->
   ∃ self,
     __init__ (Ok base) net tid_arg u_set_arg tol_arg side trafotype_arg chk
     = Ok self).
Proof.
  unfold __init__, mbind, result_bind.
  pose proof (init_t_nom_inv net (net_table net (base_trafotable base))
                tid_arg side trafotype_arg) as Hinv.
  destruct (init_t_nom _ _ _ _ _) as [tn | e'].
  - split; [intros e He; discriminate | intros _; eexists; reflexivity].
  - split.
    + intros e He. injection He as <-. exact Hinv.
    + intros Hno. destruct Hinv as [_ Hyes]. contradiction.
Qed.

(** An unknown transformer id raises [KeyError] for a two-winding
    transformer, and goes unnoticed for a three-winding one with side
    ["hv"]. *)
Lemma init_raises_only_key_error_witness :
  (KeyError = KeyError ∧ branch_taken "lv" "2W") ∧
  (∃ self,
     __init__ (Ok (Example3w.base 0)) Example3w.net 7%Z one
       (F64.frac 1 1000) "hv" "3W" true
     = Ok self).
Proof.
  split.
  - exact (proj1 (init_raises_only_key_error (Example.base (F64.of_Z 0))
                    (Example.net (F64.of_Z 0) one true) 7%Z one
                    (F64.frac 1 1000) "lv" "2W" true) KeyError eq_refl).
  - apply (proj2 (init_raises_only_key_error (Example3w.base 0)
                    Example3w.net 7%Z one (F64.frac 1 1000) "hv" "3W" true)).
    unfold branch_taken. intros [H | [H | H]]; discriminate.
Defined.

(** When a branch is taken, an unknown transformer id, a missing bus cell or
    a bus label that the bus table does not have makes the constructor raise
    [KeyError]. *)
Theorem init_missing_data_raises (base : TrafoController)
    (net : pandapowerNet) (tid_arg : Z) (u_set_arg tol_arg : float)
    (side trafotype_arg : string) (chk : bool) :
  branch_taken side trafotype_arg ->
  let t := net_table net (base_trafotable base) in
  t !! tid_arg = None ∨
  (∃ r, t !! tid_arg = Some r ∧
        (hv_bus r = None ∨ ∃ ih, hv_bus r = Some ih ∧ bus net !! ih = None)) ->
  __init__ (Ok base) net tid_arg u_set_arg tol_arg side trafotype_arg chk
  = Raise KeyError.
Proof.
  intros Hbranch t Hmissing.
  assert (Hratio : ∀ far near,
            (∀ e, far = Raise e -> e = KeyError) ->
            nominal_ratio net t tid_arg far near = Raise KeyError).
  { intros far near Hfar. unfold nominal_ratio, bus_vn_kv, at_, present.
    destruct far as [v | e]; cbn [mbind result_bind];
      [| rewrite (Hfar e eq_refl); reflexivity].
    destruct Hmissing as [-> | (r & -> & Hhv)]; cbn [mbind result_bind];
      [reflexivity |].
    destruct Hhv as [-> | (ih & -> & Hb)]; cbn [mbind result_bind];
      [reflexivity |].
    rewrite Hb. reflexivity. }
  unfold __init__, mbind, result_bind, init_t_nom. fold t.
  destruct Hbranch as [H2w | [Hlv | Hmv]].
  - rewrite decide_True by exact H2w.
    rewrite Hratio by apply at_raises_key_error. reflexivity.
  - case_decide;
      [rewrite Hratio by apply at_raises_key_error; reflexivity |].
    rewrite decide_True by exact Hlv.
    rewrite Hratio by apply at_raises_key_error. reflexivity.
  - case_decide;
      [rewrite Hratio by apply at_raises_key_error; reflexivity |].
    case_decide;
      [rewrite Hratio by apply at_raises_key_error; reflexivity |].
    rewrite decide_True by exact Hmv.
    rewrite Hratio by apply at_present_raises_key_error. reflexivity.
Qed.

Lemma init_missing_data_raises_witness :
  __init__ (Ok (Example.base (F64.of_Z 0)))
    (Example.net (F64.of_Z 0) one true) 7%Z one (F64.frac 1 1000)
    "lv" "2W" true
  = Raise KeyError.
Proof.
  apply (init_missing_data_raises (Example.base (F64.of_Z 0))
           (Example.net (F64.of_Z 0) one true) 7%Z one (F64.frac 1 1000)
           "lv" "2W" true).
  - left. reflexivity.
  - left. reflexivity.
Defined.

(** After a construction through one of the three branches, on the element
    the controller was built for and with a solved voltage for the controlled
    bus, neither a step nor the convergence test raises. *)
Theorem init_then_operations_return (base : TrafoController)
    (net : pandapowerNet) (tid_arg : Z) (u_set_arg tol_arg : float)
    (side trafotype_arg : string) (chk : bool)
    (self : ContinuousTapControl) (b : res_bus_row) :
  branch_taken side trafotype_arg ->
  __init__ (Ok base) net tid_arg u_set_arg tol_arg side trafotype_arg chk
  = Ok self ->
  base_tid base = tid_arg ->
  res_bus net !! base_controlled_bus base = Some b ->
  (∃ out, control_step net self = Ok out) ∧
  (∃ out, is_converged net self = Ok out).
Proof.
  intros Hbranch Hinit Htid Hbus.
  apply init_inv in Hinit as (Htn & Hid & Htable & Hcb).
  pose proof (init_t_nom_inv net (net_table net (base_trafotable base))
                tid_arg side trafotype_arg) as Hinv.
  rewrite Htn in Hinv.
  destruct (t_nom self) as [tn |] eqn:Hself; [| tauto].
  destruct Hinv as [[r Hrow] _].
  apply (control_step_is_converged_return net self r b tn).
  - rewrite Htable, Hid, Htid. exact Hrow.
  - rewrite Hcb. exact Hbus.
  - exact Hself.
Qed.

Lemma init_then_operations_return_witness :
  (∃ out, control_step (Example.net (F64.of_Z 0) one true)
            (Example.controller (F64.of_Z 0) true) = Ok out) ∧
  (∃ out, is_converged (Example.net (F64.of_Z 0) one true)
            (Example.controller (F64.of_Z 0) true) = Ok out).
Proof.
  apply (init_then_operations_return (Example.base (F64.of_Z 0))
           (Example.net (F64.of_Z 0) one true) 0%Z one (F64.frac 1 1000)
           "lv" "2W" true (Example.controller (F64.of_Z 0) true)
           {| vm_pu := one |}).
  - left. reflexivity.
  - reflexivity.
  - reflexivity.
  - reflexivity.
Defined.
